(** * The event-ingestion pipeline of allo-event-tracker

    A shallow embedding of
    - the Web3 service of the stock-manager schema (src/unnamed/part_002),
    - the older Web3 service of the events schema (src/unnamed/part_001),
      in the module [EventsSchema], where it differs,
    - the trigger-backfill endpoint (src/src/web3/web3.controller.ts).

    The service methods are written in a state and exception monad [M]
    whose state holds the two repository tables, the service's own maps and
    flags, and a trace of the observable calls (log queries, ABI decodes,
    repository reads and writes, signature hashes, logger output). The
    blockchain node is the record [Chain]; [sha3] and the wall clock [now]
    are parameters of the section. *)

From Stdlib Require Import ZArith List String Ascii Bool Lia RelationClasses.
From Stdlib Require Import DecimalString.
Import ListNotations.
Open Scope string_scope.
Open Scope Z_scope.

(** ** JavaScript values *)

(** A JavaScript [number]: an integer, or [NaN]. *)
Inductive JsNumber := JNum (z : Z) | JNaN.

Definition js_max (a b : JsNumber) : JsNumber :=
  match a, b with JNum x, JNum y => JNum (Z.max x y) | _, _ => JNaN end.

Definition js_sub (a b : JsNumber) : JsNumber :=
  match a, b with JNum x, JNum y => JNum (x - y) | _, _ => JNaN end.

(** [a <= b] and [a > b]: false as soon as one side is [NaN]. *)
Definition js_le (a b : JsNumber) : bool :=
  match a, b with JNum x, JNum y => x <=? y | _, _ => false end.

Definition js_gt (a b : JsNumber) : bool :=
  match a, b with JNum x, JNum y => y <? x | _, _ => false end.

(** Truthiness of an optional (possibly [undefined]) string and number. *)
Definition truthy_str (o : option string) : bool :=
  match o with Some s => negb (String.eqb s "") | None => false end.

Definition truthy_num (o : option Z) : bool :=
  match o with Some z => negb (z =? 0) | None => false end.

(** ** Strings *)

Definition lower_ascii (c : ascii) : ascii :=
  let n := nat_of_ascii c in
  if (65 <=? n)%nat && (n <=? 90)%nat then ascii_of_nat (n + 32) else c.

(** [String.prototype.toLowerCase] on ASCII text. *)
Fixpoint toLowerCase (s : string) : string :=
  match s with
  | EmptyString => EmptyString
  | String c r => String (lower_ascii c) (toLowerCase r)
  end.

Definition is_space (c : ascii) : bool :=
  existsb (Ascii.eqb c) [" "%char; "009"%char; "010"%char; "011"%char;
                         "012"%char; "013"%char].

Fixpoint trim_start (s : string) : string :=
  match s with
  | EmptyString => EmptyString
  | String c r => if is_space c then trim_start r else s
  end.

Fixpoint string_rev (s : string) : string :=
  match s with
  | EmptyString => EmptyString
  | String c r => string_rev r ++ String c EmptyString
  end.

(** [String.prototype.trim] (ASCII white space). *)
Definition trim (s : string) : string :=
  string_rev (trim_start (string_rev (trim_start s))).

(** [BigInt.prototype.toString()]: the decimal numeral. *)
Definition N_toString (n : N) : string := NilZero.string_of_uint (N.to_uint n).

Definition hex_digit (d : N) : ascii :=
  if (d <? 10)%N then ascii_of_N (48 + d) else ascii_of_N (87 + d).

Fixpoint hex_pad (k : nat) (n : N) (acc : string) : string :=
  match k with
  | O => acc
  | S k' => hex_pad k' (n / 16)%N (String (hex_digit (n mod 16)%N) acc)
  end.

(** A decoded [address] as text: [0x] and 40 hex digits (web3 returns the
    checksummed spelling; the case of the letters is not modelled). *)
Definition address_toString (a : N) : string := "0x" ++ hex_pad 40 a "".

Fixpoint zeros (k : nat) : string :=
  match k with O => "" | S k' => String "0" (zeros k') end.

Definition pad_dec (w : nat) (n : Z) : string :=
  let s := N_toString (Z.to_N n) in zeros (w - String.length s) ++ s.

(** Days since 1970-01-01 to (year, month, day) of the proleptic Gregorian
    calendar. *)
Definition civil_from_days (days : Z) : Z * Z * Z :=
  let z := days + 719468 in
  let era := z / 146097 in
  let doe := z - era * 146097 in
  let yoe := (doe - doe / 1460 + doe / 36524 - doe / 146096) / 365 in
  let y := yoe + era * 400 in
  let doy := doe - (365 * yoe + yoe / 4 - yoe / 100) in
  let mp := (5 * doy + 2) / 153 in
  let d := doy - (153 * mp + 2) / 5 + 1 in
  let m := if mp <? 10 then mp + 3 else mp - 9 in
  (if m <=? 2 then y + 1 else y, m, d).

(** [new Date(ms).toISOString()]; [None] is the [RangeError] thrown for a
    time value outside +-8.64e15 ms. *)
Definition toISOString (ms : Z) : option string :=
  if Z.abs ms <=? 8640000000000000 then
    let days := ms / 86400000 in
    let t := ms mod 86400000 in
    let '(y, m, d) := civil_from_days days in
    let year :=
      if (0 <=? y) && (y <=? 9999) then pad_dec 4 y
      else (if y <? 0 then "-" else "+") ++ pad_dec 6 (Z.abs y) in
    Some (year ++ "-" ++ pad_dec 2 m ++ "-" ++ pad_dec 2 d ++ "T" ++
          pad_dec 2 (t / 3600000) ++ ":" ++ pad_dec 2 ((t / 60000) mod 60) ++ ":" ++
          pad_dec 2 ((t / 1000) mod 60) ++ "." ++ pad_dec 3 (t mod 1000) ++ "Z")
  else None.

(** [parseInt(s)] (radix 10, or 16 after a [0x] prefix); [JNaN] when no
    digit is read. *)
Definition digit_val (radix : Z) (c : ascii) : option Z :=
  let n := Z.of_nat (nat_of_ascii c) in
  let v := if (48 <=? n) && (n <=? 57) then n - 48
           else if (97 <=? n) && (n <=? 122) then n - 87
           else if (65 <=? n) && (n <=? 90) then n - 55
           else 99 in
  if v <? radix then Some v else None.

Fixpoint parse_digits (radix : Z) (s : string) (acc : option Z) : option Z :=
  match s with
  | EmptyString => acc
  | String c r =>
      match digit_val radix c with
      | Some v => parse_digits radix r (Some (match acc with Some a => a | None => 0 end * radix + v))
      | None => acc
      end
  end.

Definition parseInt (s : string) : JsNumber :=
  let s := trim_start s in
  let '(sign, s) :=
    match s with
    | String "-" r => (-1, r)
    | String "+" r => (1, r)
    | _ => (1, s)
    end in
  let '(radix, s) :=
    match s with
    | String "0" (String x r) =>
        if Ascii.eqb x "x" || Ascii.eqb x "X" then (16, r) else (10, s)
    | _ => (10, s)
    end in
  match parse_digits radix s None with
  | Some v => JNum (sign * v)
  | None => JNaN
  end.

(** ** Data model *)

Module ContractConfig.
Record t := mk { address : string; name : string }.
End ContractConfig.

Module BlockchainConfig.
Record t := mk {
    name : string;
    wssUrl : string;
    chainId : Z;
    contracts : list ContractConfig.t }.
End BlockchainConfig.

(** A log object as web3 delivers it. Topic hashes are 32-byte words;
    [data] is the ABI payload as bytes, [None] standing for an absent or
    empty ([""], falsy) data string; [blockNumber] and [transactionHash]
    are [None] when absent. *)
Module RawLog.
Record t := mk {
    address : option string;
    topics : option (list N);
    data : option (list Byte.byte);
    blockNumber : option Z;
    transactionHash : option string }.
End RawLog.

(** The object built by [processDepositedEvent]/[processRedeemedEvent] as
    [eventData.eventData]. *)
Module Payload.
Record t := mk {
    user : string;
    assetToken : string;
    stablecoin : string;
    amount : string;
    tokenAmount : string;
    fee : string }.
End Payload.

Module BlockchainEventData.
Record t := mk {
    chainName : string;
    contractAddress : string;
    eventName : string;
    eventData : Payload.t;
    blockNumber : option Z;
    txHash : option string;
    timestamp : string;
    date : string }.
End BlockchainEventData.

(** The [Partial<StockManagerEvent>] written by the stock-manager service;
    the four amount columns are [None] when left unset. [date] holds the
    ISO string the [Date] column is built from. *)
Module StockManagerEvent.
Record t := mk {
    network : string;
    event_type : string;
    wallet_address : string;
    asset_token_address : string;
    stablecoin_address : string;
    fee : string;
    block_number : JsNumber;
    transaction_hash : option string;
    timestamp : string;
    date : string;
    amount_deposited : option string;
    tokens_minted : option string;
    tokens_redeemed : option string;
    amount_returned : option string }.
End StockManagerEvent.

(** The [Partial<Event>] written by the events-schema service. *)
Module Event.
Record t := mk {
    chain_name : string;
    event_type : string;
    contract_address : string;
    tx_hash : option string;
    block_number : JsNumber;
    user : string;
    asset_token : string;
    stablecoin : string;
    amount : string;
    token_amount : string;
    fee : string;
    event_data : Payload.t;
    timestamp : string;
    date : string }.
End Event.

(** ** The blockchain node *)

(** What [web3.eth.getBlock] answers: it throws, returns no block, or a
    block with its [timestamp] (seconds). *)
Inductive BlockResp := BlockThrows | BlockNull | BlockAt (timestamp : N).

(** The arguments of a [getPastLogs] call: contract address, block range
    (passed through [toHex]) and the one topic filter. *)
Module LogQuery.
Record t := mk { address : string; fromBlock : Z; toBlock : Z; topic : N }.
End LogQuery.

(** The node behind one connection: its current block number, the logs it
    holds, its [getBlock] answers, and whether a [logs] subscription
    request succeeds. *)
Module Chain.
Record t := mk {
    currentBlock : Z;
    logs : list RawLog.t;
    getBlock : option Z -> BlockResp;
    subscribeOk : bool }.
End Chain.

Definition log_topic0 (l : RawLog.t) : option N :=
  match RawLog.topics l with Some (t :: _) => Some t | _ => None end.

(** The node's answer to a [getPastLogs] query: the logs of the address
    (compared case-insensitively) in the block range whose first topic is
    the filter. *)
Definition matches_query (q : LogQuery.t) (l : RawLog.t) : bool :=
  match RawLog.address l, RawLog.blockNumber l, log_topic0 l with
  | Some a, Some b, Some t0 =>
      String.eqb (toLowerCase a) (toLowerCase (LogQuery.address q)) &&
      (LogQuery.fromBlock q <=? b) && (b <=? LogQuery.toBlock q) &&
      N.eqb t0 (LogQuery.topic q)
  | _, _, _ => false
  end.

Definition pastLogs (web3 : Chain.t) (q : LogQuery.t) : list RawLog.t :=
  filter (matches_query q) (Chain.logs web3).

(** ** ABI decoding *)

Inductive AbiType := T_address | T_uint256.

Module AbiInput.
Record t := mk { type : AbiType; name : string; indexed : bool }.
End AbiInput.

Inductive AbiValue := VAddress (a : N) | VUint (n : N).

(** A 32-byte word, big-endian. *)
Definition word_of_bytes (bs : list Byte.byte) : N :=
  fold_left (fun acc b => acc * 256 + Byte.to_N b)%N bs 0%N.

Definition decode_word (ty : AbiType) (w : N) : AbiValue :=
  match ty with
  | T_address => VAddress (w mod 2 ^ 160)%N
  | T_uint256 => VUint w
  end.

(** [web3.eth.abi.decodeLog]: indexed inputs are read from the given topics
    in order, the others from consecutive 32-byte words of the payload;
    [None] when it throws (an [undefined] topic, a payload too short). *)
Fixpoint decode_params (ins : list AbiInput.t) (data : list Byte.byte)
    (topics : list (option N)) : option (list (string * AbiValue)) :=
  match ins with
  | [] => Some []
  | i :: rest =>
      if AbiInput.indexed i then
        match topics with
        | Some t :: ts =>
            option_map (cons (AbiInput.name i, decode_word (AbiInput.type i) t))
              (decode_params rest data ts)
        | _ => None
        end
      else if (List.length data <? 32)%nat then None
      else
        option_map
          (cons (AbiInput.name i,
                 decode_word (AbiInput.type i) (word_of_bytes (firstn 32 data))))
          (decode_params rest (skipn 32 data) topics)
  end.

Fixpoint lookup (k : string) (d : list (string * AbiValue)) : option AbiValue :=
  match d with
  | [] => None
  | (k', v) :: r => if String.eqb k k' then Some v else lookup k r
  end.

(** [value as string] for an address, [(value as bigint).toString()] for
    an integer. *)
Definition abi_toString (v : AbiValue) : string :=
  match v with VAddress a => address_toString a | VUint n => N_toString n end.

Definition depositedInputs : list AbiInput.t :=
  [ AbiInput.mk T_address "user" true;
    AbiInput.mk T_address "assetToken" true;
    AbiInput.mk T_address "stablecoin" true;
    AbiInput.mk T_uint256 "amount" false;
    AbiInput.mk T_uint256 "tokenAmount" false;
    AbiInput.mk T_uint256 "fee" false ].

Definition redeemedInputs : list AbiInput.t :=
  [ AbiInput.mk T_address "user" true;
    AbiInput.mk T_address "assetToken" true;
    AbiInput.mk T_address "stablecoin" true;
    AbiInput.mk T_uint256 "tokenAmount" false;
    AbiInput.mk T_uint256 "amount" false;
    AbiInput.mk T_uint256 "fee" false ].

Definition depositedPrototype : string :=
  "Deposited(address,address,address,uint256,uint256,uint256)".

Definition redeemedPrototype : string :=
  "Redeemed(address,address,address,uint256,uint256,uint256)".

(** ** Effects and the service monad *)

Inductive Level := LLog | LWarn | LError | LDebug.

Inductive Effect :=
| ELog (lvl : Level) (msg : string)
| ESha3 (s : string)
| EGetPastLogs (q : LogQuery.t)
| EDecodeLog
| EGetBlock (n : option Z)
| EFindByTxHash (h : option string)
| ECreate (r : StockManagerEvent.t)
| ECreateEvent (r : Event.t)
| EEmit (ev : BlockchainEventData.t)
| ESubscribe (chainName : string)
| EUnsubscribe (key : string)
| EDisconnect (chainName : string).

Inductive Exn := Error (msg : string) | BadRequestException (msg : string).

(** The service's state: the repositories' tables, [web3Connections] and
    [subscriptions], the [connect] handlers registered on the providers,
    [connected], whether [backfillInterval] is set, [blockchainConfigs], and
    the trace of effects (oldest first). *)
Record St := mkSt {
  stock_manager_events : list StockManagerEvent.t;
  events : list Event.t;
  web3Connections : list (string * Chain.t);
  subscriptions : list string;
  connectHandlers : list (string * list ContractConfig.t);
  connected : bool;
  backfillArmed : bool;
  blockchainConfigs : list BlockchainConfig.t;
  trace : list Effect }.

Inductive Result (A : Type) := Ok (a : A) | Throw (e : Exn).
Arguments Ok {A} a.
Arguments Throw {A} e.

Definition M (A : Type) : Type := St -> Result A * St.

Definition ret {A} (a : A) : M A := fun s => (Ok a, s).

Definition bind {A B} (m : M A) (k : A -> M B) : M B :=
  fun s => match m s with
           | (Ok a, s') => k a s'
           | (Throw e, s') => (Throw e, s')
           end.

Definition throw {A} (e : Exn) : M A := fun s => (Throw e, s).

(** [try { m } catch (error) { h(error) }]. *)
Definition try_catch {A} (m : M A) (h : Exn -> M A) : M A :=
  fun s => match m s with
           | (Throw e, s') => h e s'
           | r => r
           end.

Definition get : M St := fun s => (Ok s, s).

Definition modify (f : St -> St) : M unit := fun s => (Ok tt, f s).

Notation "x <- c1 ;; c2" := (bind c1 (fun x => c2))
  (at level 61, c1 at next level, right associativity).
Notation "c1 ;; c2" := (bind c1 (fun _ : unit => c2))
  (at level 61, right associativity).

Definition with_trace (tr : list Effect) (s : St) : St :=
  mkSt (stock_manager_events s) (events s) (web3Connections s) (subscriptions s)
       (connectHandlers s) (connected s) (backfillArmed s) (blockchainConfigs s) tr.

Definition emit (e : Effect) : M unit :=
  modify (fun s => with_trace (trace s ++ [e]) s).

Definition logger (lvl : Level) (msg : string) : M unit := emit (ELog lvl msg).

(** [for (const x of xs) await f(x)]. *)
Fixpoint forM {A} (xs : list A) (f : A -> M unit) : M unit :=
  match xs with
  | [] => ret tt
  | x :: r => f x ;; forM r f
  end.

(** [Map.prototype.get] and [Map.prototype.set] on an association list
    (a key already present keeps its place). *)
Fixpoint map_get {V} (k : string) (m : list (string * V)) : option V :=
  match m with
  | [] => None
  | (k', v) :: r => if String.eqb k k' then Some v else map_get k r
  end.

Fixpoint map_set {V} (k : string) (v : V) (m : list (string * V)) : list (string * V) :=
  match m with
  | [] => [(k, v)]
  | (k', v') :: r => if String.eqb k k' then (k, v) :: r else (k', v') :: map_set k v r
  end.

Definition set_stock_manager_events (x : list StockManagerEvent.t) (s : St) : St :=
  mkSt x (events s) (web3Connections s) (subscriptions s) (connectHandlers s)
       (connected s) (backfillArmed s) (blockchainConfigs s) (trace s).

Definition set_events (x : list Event.t) (s : St) : St :=
  mkSt (stock_manager_events s) x (web3Connections s) (subscriptions s) (connectHandlers s)
       (connected s) (backfillArmed s) (blockchainConfigs s) (trace s).

Definition set_web3Connections (x : list (string * Chain.t)) (s : St) : St :=
  mkSt (stock_manager_events s) (events s) x (subscriptions s) (connectHandlers s)
       (connected s) (backfillArmed s) (blockchainConfigs s) (trace s).

Definition set_subscriptions (x : list string) (s : St) : St :=
  mkSt (stock_manager_events s) (events s) (web3Connections s) x (connectHandlers s)
       (connected s) (backfillArmed s) (blockchainConfigs s) (trace s).

Definition set_connectHandlers (x : list (string * list ContractConfig.t)) (s : St) : St :=
  mkSt (stock_manager_events s) (events s) (web3Connections s) (subscriptions s) x
       (connected s) (backfillArmed s) (blockchainConfigs s) (trace s).

Definition set_connected (x : bool) (s : St) : St :=
  mkSt (stock_manager_events s) (events s) (web3Connections s) (subscriptions s)
       (connectHandlers s) x (backfillArmed s) (blockchainConfigs s) (trace s).

Definition set_backfillArmed (x : bool) (s : St) : St :=
  mkSt (stock_manager_events s) (events s) (web3Connections s) (subscriptions s)
       (connectHandlers s) (connected s) x (blockchainConfigs s) (trace s).

Definition set_blockchainConfigs (x : list BlockchainConfig.t) (s : St) : St :=
  mkSt (stock_manager_events s) (events s) (web3Connections s) (subscriptions s)
       (connectHandlers s) (connected s) (backfillArmed s) x (trace s).

(** [subscriptions.set(key, subscription)]: the key set of the map. *)
Definition key_add (k : string) (ks : list string) : list string :=
  if existsb (String.eqb k) ks then ks else ks ++ [k].

(** [parseInt(eventData.blockNumber)]. *)
Definition parseInt_num (o : option Z) : JsNumber :=
  match o with Some z => JNum z | None => JNaN end.

(** [fromBlock || d] for an optional number. *)
Definition js_or (o : option JsNumber) (d : JsNumber) : JsNumber :=
  match o with
  | Some (JNum z) => if z =? 0 then d else JNum z
  | _ => d
  end.

Definition batchSize : Z := 1000.

(** The windows of [for (let block = fromBlock; block <= toBlock; block +=
    batchSize) { const endBlock = Math.min(block + batchSize - 1, toBlock);
    ... }]: the pairs [(block, endBlock)] in order. Each iteration raises
    [block] by at least one, so [toBlock - block + 1] iterations bound the
    loop. *)
Fixpoint windows_loop (fuel : nat) (block toBlock : Z) : list (Z * Z) :=
  match fuel with
  | O => []
  | S fuel' =>
      if block <=? toBlock then
        (block, Z.min (block + batchSize - 1) toBlock)
          :: windows_loop fuel' (block + batchSize) toBlock
      else []
  end.

Definition windows (fromBlock : JsNumber) (toBlock : Z) : list (Z * Z) :=
  match fromBlock with
  | JNum f => windows_loop (Z.to_nat (toBlock - f + 1)) f toBlock
  | JNaN => []
  end.

Inductive EventKind := Deposited | Redeemed.

(** The response of [POST /web3/trigger-backfill]. *)
Inductive BackfillResponse :=
| BackfillOk (blockCount : JsNumber)
| BackfillFailed (error : string).

(** The response of [POST /web3/store-previous-events]. *)
Inductive StorePreviousEventsResponse :=
| StoreOk (chainId : Z) (fromBlock : option JsNumber) (contracts : list ContractConfig.t)
| StoreFailed (error : string).

Section Service.

(** [web3.utils.sha3], the wall clock read by [new Date()], and the node
    (if any) that answers at a WebSocket URL. *)
Variable sha3 : string -> N.
Variable now : Z.
Variable endpoint : string -> option Chain.t.

Definition web3_sha3 (s : string) : M N := emit (ESha3 s) ;; ret (sha3 s).

Definition getConnection (chainName : string) : M (option Chain.t) :=
  s <- get ;; ret (map_get chainName (web3Connections s)).

Definition getPastLogs (web3 : Chain.t) (q : LogQuery.t) : M (list RawLog.t) :=
  emit (EGetPastLogs q) ;; ret (pastLogs web3 q).

(** [log.topics[i]]: throws when [topics] is absent. *)
Definition topic_at (log : RawLog.t) (i : nat) : M (option N) :=
  match RawLog.topics log with
  | Some ts => ret (nth_error ts i)
  | None => throw (Error "Cannot read properties of undefined")
  end.

Definition decodeLog (inputs : list AbiInput.t) (data : option (list Byte.byte))
    (topics : list (option N)) : M (list (string * AbiValue)) :=
  emit EDecodeLog ;;
  match data with
  | Some d =>
      match decode_params inputs d topics with
      | Some r => ret r
      | None => throw (Error "decodeLog")
      end
  | None => throw (Error "decodeLog")
  end.

(** [new Date().toISOString()]. *)
Definition nowISO : M string :=
  match toISOString now with
  | Some d => ret d
  | None => throw (Error "Invalid time value")
  end.

Definition getBlockDateFromTimestamp (web3 : Chain.t) (blockNumber : option Z)
    : M (string * string) :=
  try_catch
    (emit (EGetBlock blockNumber) ;;
     match Chain.getBlock web3 blockNumber with
     | BlockThrows => throw (Error "getBlock")
     | BlockAt ts =>
         if negb (ts =? 0)%N then
           match toISOString (Z.of_N ts * 1000) with
           | Some d => ret (d, N_toString ts)
           | None => throw (Error "Invalid time value")
           end
         else date <- nowISO ;; timestamp <- nowISO ;; ret (date, timestamp)
     | BlockNull => date <- nowISO ;; timestamp <- nowISO ;; ret (date, timestamp)
     end)
    (fun _ => logger LWarn "Error getting block timestamp" ;;
              date <- nowISO ;; timestamp <- nowISO ;; ret (date, timestamp)).

(** [eventRepository.findByTxHash]: [findOne({ where: { transaction_hash }})];
    with an [undefined] hash the condition is dropped and the first row is
    returned. *)
Definition hash_is (h : string) (r : StockManagerEvent.t) : bool :=
  match StockManagerEvent.transaction_hash r with
  | Some h' => String.eqb h h'
  | None => false
  end.

Definition find_by_hash (h : option string) (rows : list StockManagerEvent.t)
    : option StockManagerEvent.t :=
  match h with
  | Some h => find (hash_is h) rows
  | None => hd_error rows
  end.

Definition findByTxHash (h : option string) : M (option StockManagerEvent.t) :=
  emit (EFindByTxHash h) ;;
  s <- get ;;
  ret (find_by_hash h (stock_manager_events s)).

(** A value of a Postgres [integer] column ([@Column() block_number:
    number]): [NaN] and numbers outside 32 bits are refused. *)
Definition int4_column (n : JsNumber) : bool :=
  match n with
  | JNum z => (-2147483648 <=? z) && (z <=? 2147483647)
  | JNaN => false
  end.

(** A property set on the [Partial] row ([undefined] leaves the column
    NULL). *)
Definition present {A} (o : option A) : bool :=
  match o with Some _ => true | None => false end.

(** Whether the database accepts a [stock_manager_events] row: every
    [@Column()] of the entity is NOT NULL and [block_number] is an
    [integer]. (The [date] column receives [new Date(date)] of an ISO
    string, which is always a valid date here.) *)
Definition row_accepted (r : StockManagerEvent.t) : bool :=
  int4_column (StockManagerEvent.block_number r) &&
  present (StockManagerEvent.transaction_hash r) &&
  present (StockManagerEvent.amount_deposited r) &&
  present (StockManagerEvent.tokens_minted r) &&
  present (StockManagerEvent.tokens_redeemed r) &&
  present (StockManagerEvent.amount_returned r).

(** [eventRepository.create]: [repository.save] of one row; the INSERT is
    sent, and rejected by the database when [row_accepted] fails. *)
Definition create (r : StockManagerEvent.t) : M unit :=
  emit (ECreate r) ;;
  if row_accepted r then
    modify (fun s => set_stock_manager_events (stock_manager_events s ++ [r]) s)
  else throw (Error "violates the column constraints").

(** The row [storeEventInDatabase] writes: the common columns, then the
    amount columns chosen by [eventName.toLowerCase()]. *)
Definition dbEventOf (ev : BlockchainEventData.t) : StockManagerEvent.t :=
  let p := BlockchainEventData.eventData ev in
  let kind := toLowerCase (BlockchainEventData.eventName ev) in
  let '(amount_deposited, tokens_minted, tokens_redeemed, amount_returned) :=
    if String.eqb kind "deposited" then
      (Some (Payload.amount p), Some (Payload.tokenAmount p), Some "0", Some "0")
    else if String.eqb kind "redeemed" then
      (Some "0", Some "0", Some (Payload.tokenAmount p), Some (Payload.amount p))
    else (None, None, None, None) in
  StockManagerEvent.mk
    (BlockchainEventData.chainName ev) kind
    (Payload.user p) (Payload.assetToken p) (Payload.stablecoin p) (Payload.fee p)
    (parseInt_num (BlockchainEventData.blockNumber ev))
    (BlockchainEventData.txHash ev)
    (BlockchainEventData.timestamp ev) (BlockchainEventData.date ev)
    amount_deposited tokens_minted tokens_redeemed amount_returned.

Definition storeEventInDatabase (ev : BlockchainEventData.t) (contractName : string)
    : M unit :=
  try_catch
    (existingEvent <- findByTxHash (BlockchainEventData.txHash ev) ;;
     match existingEvent with
     | Some _ => logger LWarn "Duplicate event detected, skipping"
     | None =>
         let dbEvent := dbEventOf ev in
         create dbEvent ;;
         logger LLog "event stored in database"
     end)
    (fun _ => logger LError "Error storing event in database").

(** The guard [!log || !log.data || !log.topics || log.topics.length < 4 ||
    !log.blockNumber || !log.transactionHash], negated. *)
Definition log_is_valid (log : RawLog.t) : bool :=
  match RawLog.data log with Some _ => true | None => false end &&
  match RawLog.topics log with
  | Some ts => (4 <=? List.length ts)%nat
  | None => false
  end &&
  truthy_num (RawLog.blockNumber log) &&
  truthy_str (RawLog.transactionHash log).

Definition processDepositedEvent (chainName : string) (contract : ContractConfig.t)
    (log : RawLog.t) (web3 : Chain.t) : M unit :=
  try_catch
    (if negb (log_is_valid log) then
       logger LWarn "Invalid log object for Deposited event processing"
     else
       t1 <- topic_at log 1 ;; t2 <- topic_at log 2 ;; t3 <- topic_at log 3 ;;
       decodedLog <- decodeLog depositedInputs (RawLog.data log) [t1; t2; t3] ;;
       match lookup "user" decodedLog, lookup "assetToken" decodedLog,
             lookup "stablecoin" decodedLog, lookup "amount" decodedLog,
             lookup "tokenAmount" decodedLog, lookup "fee" decodedLog with
       | Some user, Some assetToken, Some stablecoin, Some amount, Some tokenAmount, Some fee =>
           dt <- getBlockDateFromTimestamp web3 (RawLog.blockNumber log) ;;
           let '(date, timestamp) := dt in
           let eventData :=
             BlockchainEventData.mk chainName (ContractConfig.address contract) "Deposited"
               (Payload.mk (abi_toString user) (abi_toString assetToken)
                  (abi_toString stablecoin) (abi_toString amount)
                  (abi_toString tokenAmount) (abi_toString fee))
               (RawLog.blockNumber log) (RawLog.transactionHash log) timestamp date in
           storeEventInDatabase eventData (ContractConfig.name contract) ;;
           logger LLog "Deposited event"
       | _, _, _, _, _, _ => logger LWarn "Invalid decoded log data for Deposited event"
       end)
    (fun _ => logger LError "Error processing Deposited event").

Definition processRedeemedEvent (chainName : string) (contract : ContractConfig.t)
    (log : RawLog.t) (web3 : Chain.t) : M unit :=
  try_catch
    (if negb (log_is_valid log) then
       logger LWarn "Invalid log object for Redeemed event processing"
     else
       t1 <- topic_at log 1 ;; t2 <- topic_at log 2 ;; t3 <- topic_at log 3 ;;
       decodedLog <- decodeLog redeemedInputs (RawLog.data log) [t1; t2; t3] ;;
       match lookup "user" decodedLog, lookup "assetToken" decodedLog,
             lookup "stablecoin" decodedLog, lookup "tokenAmount" decodedLog,
             lookup "amount" decodedLog, lookup "fee" decodedLog with
       | Some user, Some assetToken, Some stablecoin, Some tokenAmount, Some amount, Some fee =>
           dt <- getBlockDateFromTimestamp web3 (RawLog.blockNumber log) ;;
           let '(date, timestamp) := dt in
           let eventData :=
             BlockchainEventData.mk chainName (ContractConfig.address contract) "Redeemed"
               (Payload.mk (abi_toString user) (abi_toString assetToken)
                  (abi_toString stablecoin) (abi_toString amount)
                  (abi_toString tokenAmount) (abi_toString fee))
               (RawLog.blockNumber log) (RawLog.transactionHash log) timestamp date in
           storeEventInDatabase eventData (ContractConfig.name contract) ;;
           logger LLog "Redeemed event"
       | _, _, _, _, _, _ => logger LWarn "Invalid decoded log data for Redeemed event"
       end)
    (fun _ => logger LError "Error processing Redeemed event").

(** [contract.address.toLowerCase() === contractAddress]. *)
Definition contract_matches (contractAddress : option string) (c : ContractConfig.t) : bool :=
  match contractAddress with
  | Some a => String.eqb (toLowerCase (ContractConfig.address c)) a
  | None => false
  end.

(** The [data] handler of the log subscription. The [!log] test is not
    modelled: a [RawLog.t] is never [null]. *)
Definition processLog (chainName : string) (contracts : list ContractConfig.t)
    (log : RawLog.t) : M unit :=
  let contractAddress := option_map toLowerCase (RawLog.address log) in
  if negb (truthy_str contractAddress) then logger LWarn "Log object missing address property"
  else
    match find (contract_matches contractAddress) contracts with
    | None => logger LWarn "Received log for unknown contract"
    | Some contract =>
        web3o <- getConnection chainName ;;
        match web3o with
        | None => logger LError "No Web3 connection"
        | Some web3 =>
            try_catch
              (eventSignature <- topic_at log 0 ;;
               depositedSignature <- web3_sha3 depositedPrototype ;;
               redeemedSignature <- web3_sha3 redeemedPrototype ;;
               if match eventSignature with Some e => N.eqb e depositedSignature | None => false end
               then processDepositedEvent chainName contract log web3
               else if match eventSignature with Some e => N.eqb e redeemedSignature | None => false end
               then processRedeemedEvent chainName contract log web3
               else logger LDebug "Unknown event signature")
              (fun _ => logger LError "Error processing log")
        end
    end.

Definition subscribeToEvents (chainName : string) (contracts : list ContractConfig.t)
    : M unit :=
  web3o <- getConnection chainName ;;
  match web3o with
  | None => logger LError "No WebSocket connection"
  | Some web3 =>
      try_catch
        (emit (ESubscribe chainName) ;;
         if Chain.subscribeOk web3 then
           modify (fun s => set_subscriptions (key_add (chainName ++ "-logs") (subscriptions s)) s) ;;
           logger LLog "Subscribed to logs"
         else throw (Error "subscribe"))
        (fun _ => logger LError "Failed to subscribe to logs")
  end.

(** [new Web3(new WebsocketProvider(wssUrl))] and [await getChainId()]
    succeed when [endpoint wssUrl] is a node. Of the four provider
    listeners only [connect] does more than log; it is recorded in
    [connectHandlers]. *)
Definition connectToChain (config : BlockchainConfig.t) : M unit :=
  try_catch
    (if String.eqb (trim (BlockchainConfig.wssUrl config)) "" then
       throw (Error "WebSocket URL is empty")
     else
       match endpoint (BlockchainConfig.wssUrl config) with
       | None => throw (Error "getChainId")
       | Some web3 =>
           modify (fun s => set_web3Connections
                              (map_set (BlockchainConfig.name config) web3 (web3Connections s)) s) ;;
           logger LLog "Connected" ;;
           modify (fun s => set_connectHandlers
                              (connectHandlers s ++
                               [(BlockchainConfig.name config, BlockchainConfig.contracts config)]) s)
       end)
    (fun e => logger LError "Failed to connect" ;; throw e).

(** The provider of [chainName] emits [connect]: every [connect] listener
    registered for it runs. *)
Definition onProviderConnect (chainName : string) : M unit :=
  s <- get ;;
  forM (connectHandlers s) (fun h =>
    let '(n, contracts) := h in
    if String.eqb n chainName then
      logger LLog "WebSocket connected" ;; subscribeToEvents n contracts
    else ret tt).

Definition startHourlyBackfill : M unit :=
  modify (set_backfillArmed true) ;; logger LLog "Hourly backfill process started".

Definition connectToMultipleChains (configs : list BlockchainConfig.t) : M unit :=
  logger LLog "Connecting to blockchains" ;;
  modify (set_blockchainConfigs configs) ;;
  forM configs (fun config =>
    try_catch (connectToChain config) (fun _ => logger LError "Failed to connect")) ;;
  modify (set_connected true) ;;
  logger LLog "Connection setup completed" ;;
  startHourlyBackfill.

Definition fetchAndStoreContractEvents (web3 : Chain.t) (chainName : string)
    (contract : ContractConfig.t) (fromBlock : JsNumber) (toBlock : Z) : M unit :=
  try_catch
    (forM (windows fromBlock toBlock) (fun w =>
       let '(block, endBlock) := w in
       dep <- web3_sha3 depositedPrototype ;;
       depositedEvents <- getPastLogs web3
         (LogQuery.mk (ContractConfig.address contract) block endBlock dep) ;;
       red <- web3_sha3 redeemedPrototype ;;
       redeemedEvents <- getPastLogs web3
         (LogQuery.mk (ContractConfig.address contract) block endBlock red) ;;
       forM depositedEvents (fun log => processDepositedEvent chainName contract log web3) ;;
       forM redeemedEvents (fun log => processRedeemedEvent chainName contract log web3) ;;
       logger LLog "Processed Events for block"))
    (fun _ => logger LError "Error fetching events").

Definition storePreviousEventsForChain (config : BlockchainConfig.t)
    (fromBlock : option JsNumber) : M unit :=
  web3o <- getConnection (BlockchainConfig.name config) ;;
  match web3o with
  | None => logger LError "No Web3 connection"
  | Some web3 =>
      try_catch
        (let currentBlock := Chain.currentBlock web3 in
         let startBlock := js_or fromBlock (js_max (JNum 0) (JNum (currentBlock - 80000))) in
         forM (BlockchainConfig.contracts config) (fun contract =>
           fetchAndStoreContractEvents web3 (BlockchainConfig.name config) contract
             startBlock currentBlock))
        (fun _ => logger LError "Error fetching previous events")
  end.

Definition storePreviousEvents (configs : list BlockchainConfig.t)
    (fromBlock : option JsNumber) : M unit :=
  forM configs (fun config =>
    try_catch (storePreviousEventsForChain config fromBlock)
              (fun _ => logger LError "Failed to store previous events")) ;;
  logger LLog "Finished storing previous events".

Definition processEventWithDeduplication (chainName : string) (contract : ContractConfig.t)
    (log : RawLog.t) (web3 : Chain.t) (eventType : EventKind) : M bool :=
  try_catch
    (existingEvent <- findByTxHash (RawLog.transactionHash log) ;;
     match existingEvent with
     | Some _ => ret false
     | None =>
         match eventType with
         | Deposited => processDepositedEvent chainName contract log web3
         | Redeemed => processRedeemedEvent chainName contract log web3
         end ;;
         ret true
     end)
    (fun _ => logger LError "Error processing event with deduplication" ;; ret false).

(** The counters [totalProcessed] and [totalSkipped] are never read, so the
    results of [processEventWithDeduplication] are dropped. *)
Definition fetchAndStoreContractEventsWithDeduplication (web3 : Chain.t)
    (chainName : string) (contract : ContractConfig.t) (fromBlock : JsNumber)
    (toBlock : Z) : M unit :=
  try_catch
    (forM (windows fromBlock toBlock) (fun w =>
       let '(block, endBlock) := w in
       dep <- web3_sha3 depositedPrototype ;;
       depositedEvents <- getPastLogs web3
         (LogQuery.mk (ContractConfig.address contract) block endBlock dep) ;;
       red <- web3_sha3 redeemedPrototype ;;
       redeemedEvents <- getPastLogs web3
         (LogQuery.mk (ContractConfig.address contract) block endBlock red) ;;
       forM depositedEvents (fun log =>
         _ <- processEventWithDeduplication chainName contract log web3 Deposited ;; ret tt) ;;
       forM redeemedEvents (fun log =>
         _ <- processEventWithDeduplication chainName contract log web3 Redeemed ;; ret tt) ;;
       logger LDebug "Backfill batch completed") ;;
     logger LLog "Backfill completed")
    (fun _ => logger LError "Error during backfill").

Definition backfillLastBlocks (config : BlockchainConfig.t) (blockCount : JsNumber)
    : M unit :=
  web3o <- getConnection (BlockchainConfig.name config) ;;
  match web3o with
  | None => logger LError "No Web3 connection during backfill"
  | Some web3 =>
      try_catch
        (let currentBlock := Chain.currentBlock web3 in
         let fromBlock := js_max (JNum 0) (js_sub (JNum currentBlock) blockCount) in
         forM (BlockchainConfig.contracts config) (fun contract =>
           fetchAndStoreContractEventsWithDeduplication web3
             (BlockchainConfig.name config) contract fromBlock currentBlock))
        (fun _ => logger LError "Error during backfill")
  end.

(** One firing of the backfill timers. *)
Definition performHourlyBackfill : M unit :=
  logger LLog "Starting hourly backfill process" ;;
  try_catch
    (s <- get ;;
     forM (blockchainConfigs s) (fun config => backfillLastBlocks config (JNum 10000)) ;;
     logger LLog "Hourly backfill process completed successfully")
    (fun _ => logger LError "Error during hourly backfill process").

Definition triggerManualBackfill (blockCount : JsNumber) : M unit :=
  logger LLog "Manual backfill triggered" ;;
  try_catch
    (s <- get ;;
     forM (blockchainConfigs s) (fun config => backfillLastBlocks config blockCount) ;;
     logger LLog "Manual backfill completed successfully")
    (fun e => logger LError "Error during manual backfill" ;; throw e).

(** [Web3Controller.triggerBackfill], the handler of
    [POST /web3/trigger-backfill?blockCount=...]. *)
Definition triggerBackfill (blockCount : option string) : M BackfillResponse :=
  try_catch
    (logger LLog "Received request to trigger backfill" ;;
     let blockCountNumber :=
       match blockCount with
       | Some s => if String.eqb s "" then JNum 10000 else parseInt s
       | None => JNum 10000
       end in
     if js_le blockCountNumber (JNum 0) || js_gt blockCountNumber (JNum 50000) then
       throw (BadRequestException "Block count must be between 1 and 50000")
     else
       triggerManualBackfill blockCountNumber ;;
       ret (BackfillOk blockCountNumber))
    (fun e => logger LError "Error triggering backfill" ;;
       match e with
       | BadRequestException _ => throw e
       | Error m => ret (BackfillFailed m)
       end).

(** The [data] listener of the log subscription made in
    [subscribeToEvents]. *)
Definition onLogData (chainName : string) (contracts : list ContractConfig.t)
    (log : RawLog.t) : M unit :=
  try_catch (processLog chainName contracts log)
    (fun _ => logger LError "Error processing log data").

(** [Web3Controller.storePreviousEvents], the handler of
    [POST /web3/store-previous-events?fromBlock=...] with body
    [{ chainId, fromBlock }]; [staticConfigs] is the imported
    [blockchainConfigs] constant. A [chainId] is a number or absent. *)
Definition Web3Controller_storePreviousEvents (staticConfigs : list BlockchainConfig.t)
    (chainId : option Z) (bodyFromBlock : option Z) (fromBlock : option string)
    : M StorePreviousEventsResponse :=
  try_catch
    (logger LLog "Received request to store previous events" ;;
     let fromBlockNumber :=
       match fromBlock with
       | Some q => if String.eqb q "" then option_map JNum bodyFromBlock else Some (parseInt q)
       | None => option_map JNum bodyFromBlock
       end in
     match chainId with
     | None => throw (BadRequestException "Chain ID is required")
     | Some cid =>
         if cid =? 0 then throw (BadRequestException "Chain ID is required")
         else
           match find (fun config => BlockchainConfig.chainId config =? cid) staticConfigs with
           | None => throw (BadRequestException "Blockchain configuration not found")
           | Some blockchainConfig =>
               if String.eqb (trim (BlockchainConfig.wssUrl blockchainConfig)) "" then
                 throw (BadRequestException "WebSocket URL is not configured")
               else
                 storePreviousEvents [blockchainConfig] fromBlockNumber ;;
                 ret (StoreOk cid fromBlockNumber (BlockchainConfig.contracts blockchainConfig))
           end
     end)
    (fun e => logger LError "Error storing previous events" ;;
       match e with
       | BadRequestException _ => throw e
       | Error m => ret (StoreFailed m)
       end).

(** [provider?.connected || false] of a connection. *)
Variable providerConnected : Chain.t -> bool.

Definition getChainConnectionStatus : M (list (string * bool)) :=
  s <- get ;;
  ret (map (fun c => (fst c, providerConnected (snd c))) (web3Connections s)).

Definition isConnected : M bool := s <- get ;; ret (connected s).

Definition getWeb3Instance (chainName : string) : M (option Chain.t) :=
  s <- get ;; ret (map_get chainName (web3Connections s)).

(** Whether [subscription.unsubscribe()] of a subscription key, and
    [provider.disconnect()] of a chain, resolve ([true]) or reject. The
    WebSocket provider always has a [disconnect] method. *)
Variable unsubscribeOk : string -> bool.
Variable disconnectOk : string -> bool.

Definition disconnect : M unit :=
  logger LLog "Disconnecting" ;;
  s <- get ;;
  forM (subscriptions s) (fun key =>
    try_catch
      (emit (EUnsubscribe key) ;;
       if unsubscribeOk key then ret tt else throw (Error "unsubscribe"))
      (fun _ => logger LWarn "Error unsubscribing")) ;;
  s' <- get ;;
  forM (web3Connections s') (fun c =>
    try_catch
      (emit (EDisconnect (fst c)) ;;
       if disconnectOk (fst c) then logger LLog "Disconnected" else throw (Error "disconnect"))
      (fun _ => logger LWarn "Error disconnecting")) ;;
  modify (set_subscriptions []) ;;
  modify (set_web3Connections []) ;;
  modify (set_connected false).

Definition stopHourlyBackfill : M unit :=
  s <- get ;;
  if backfillArmed s then
    modify (set_backfillArmed false) ;;
    logger LLog "Hourly backfill process stopped"
  else ret tt.

(** [getBackfillStatus().isRunning]; [lastRun] and [nextRun] are always
    [undefined]. *)
Definition getBackfillStatus : M bool := s <- get ;; ret (backfillArmed s).

Definition onModuleDestroy : M unit := stopHourlyBackfill ;; disconnect.

End Service.

(** ** The events-schema service (src/unnamed/part_001)

    It shares [getBlockDateFromTimestamp], [subscribeToEvents] and the log
    query with the stock-manager service, and differs in what follows: no
    validation of the log before decoding, the [Event] table, the
    [event] emission, the subscription made during [connectToChain], and
    a default look-back of 100000 blocks. *)
Module EventsSchema.
Section Service.

Variable sha3 : string -> N.
Variable now : Z.
Variable endpoint : string -> option Chain.t.

Definition findByTxHash (h : option string) : M (option Event.t) :=
  emit (EFindByTxHash h) ;;
  s <- get ;;
  ret (match h with
       | Some h =>
           find (fun r => match Event.tx_hash r with
                          | Some h' => String.eqb h h'
                          | None => false
                          end) (events s)
       | None => hd_error (events s)
       end).

(** Whether the database accepts an [events] row: [tx_hash] and the
    [integer] [block_number] are NOT NULL columns; the other columns always
    receive a value. *)
Definition row_accepted (r : Event.t) : bool :=
  int4_column (Event.block_number r) && present (Event.tx_hash r).

(** [eventRepository.create] on the [events] table. *)
Definition create (r : Event.t) : M unit :=
  emit (ECreateEvent r) ;;
  if row_accepted r then modify (fun s => set_events (events s ++ [r]) s)
  else throw (Error "violates the column constraints").

(** [decodedLog.<name>] followed by a property access ([as string] or
    [.toString()]); [decodeLog] returns every input it is given, so the
    failing case does not arise. *)
Definition decoded_field (d : list (string * AbiValue)) (k : string) : M string :=
  match lookup k d with
  | Some v => ret (abi_toString v)
  | None => throw (Error "Cannot read properties of undefined")
  end.

Definition storeEventInDatabase (ev : BlockchainEventData.t) (contractName : string)
    : M unit :=
  try_catch
    (existingEvent <- findByTxHash (BlockchainEventData.txHash ev) ;;
     match existingEvent with
     | Some _ => logger LWarn "Duplicate event detected, skipping"
     | None =>
         let p := BlockchainEventData.eventData ev in
         let dbEvent :=
           Event.mk (BlockchainEventData.chainName ev)
             (toLowerCase (BlockchainEventData.eventName ev))
             (BlockchainEventData.contractAddress ev)
             (BlockchainEventData.txHash ev)
             (parseInt_num (BlockchainEventData.blockNumber ev))
             (Payload.user p) (Payload.assetToken p) (Payload.stablecoin p)
             (Payload.amount p) (Payload.tokenAmount p) (Payload.fee p) p
             (BlockchainEventData.timestamp ev) (BlockchainEventData.date ev) in
         create dbEvent ;;
         logger LLog "event stored in database"
     end)
    (fun _ => logger LError "Error storing event in database").

Definition processEvent (eventName : string) (inputs : list AbiInput.t)
    (chainName : string) (contract : ContractConfig.t) (log : RawLog.t) (web3 : Chain.t)
    : M unit :=
  t1 <- topic_at log 1 ;; t2 <- topic_at log 2 ;; t3 <- topic_at log 3 ;;
  decodedLog <- decodeLog inputs (RawLog.data log) [t1; t2; t3] ;;
  dt <- getBlockDateFromTimestamp now web3 (RawLog.blockNumber log) ;;
  let '(date, timestamp) := dt in
  user <- decoded_field decodedLog "user" ;;
  assetToken <- decoded_field decodedLog "assetToken" ;;
  stablecoin <- decoded_field decodedLog "stablecoin" ;;
  amount <- decoded_field decodedLog "amount" ;;
  tokenAmount <- decoded_field decodedLog "tokenAmount" ;;
  fee <- decoded_field decodedLog "fee" ;;
  let eventData :=
    BlockchainEventData.mk chainName (ContractConfig.address contract) eventName
      (Payload.mk user assetToken stablecoin amount tokenAmount fee)
      (RawLog.blockNumber log) (RawLog.transactionHash log) timestamp date in
  storeEventInDatabase eventData (ContractConfig.name contract) ;;
  emit (EEmit eventData) ;;
  logger LLog (eventName ++ " event").

(** The two handlers differ only in the event name and the ABI inputs. *)
Definition processDepositedEvent (chainName : string) (contract : ContractConfig.t)
    (log : RawLog.t) (web3 : Chain.t) : M unit :=
  try_catch (processEvent "Deposited" depositedInputs chainName contract log web3)
    (fun _ => logger LError "Error processing Deposited event").

Definition processRedeemedEvent (chainName : string) (contract : ContractConfig.t)
    (log : RawLog.t) (web3 : Chain.t) : M unit :=
  try_catch (processEvent "Redeemed" redeemedInputs chainName contract log web3)
    (fun _ => logger LError "Error processing Redeemed event").

Definition processLog (chainName : string) (contracts : list ContractConfig.t)
    (log : RawLog.t) : M unit :=
  let contractAddress := option_map toLowerCase (RawLog.address log) in
  match find (contract_matches contractAddress) contracts with
  | None => logger LWarn "Received log for unknown contract"
  | Some contract =>
      web3o <- getConnection chainName ;;
      match web3o with
      | None => logger LError "No Web3 connection"
      | Some web3 =>
          try_catch
            (eventSignature <- topic_at log 0 ;;
             depositedSignature <- web3_sha3 sha3 depositedPrototype ;;
             redeemedSignature <- web3_sha3 sha3 redeemedPrototype ;;
             if match eventSignature with Some e => N.eqb e depositedSignature | None => false end
             then processDepositedEvent chainName contract log web3
             else if match eventSignature with Some e => N.eqb e redeemedSignature | None => false end
             then processRedeemedEvent chainName contract log web3
             else logger LDebug "Unknown event signature")
            (fun _ => logger LError "Error processing log")
      end
  end.

Definition fetchAndStoreContractEvents (web3 : Chain.t) (chainName : string)
    (contract : ContractConfig.t) (fromBlock : JsNumber) (toBlock : Z) : M unit :=
  try_catch
    (forM (windows fromBlock toBlock) (fun w =>
       let '(block, endBlock) := w in
       logger LLog "Fetching events" ;;
       dep <- web3_sha3 sha3 depositedPrototype ;;
       depositedEvents <- getPastLogs web3
         (LogQuery.mk (ContractConfig.address contract) block endBlock dep) ;;
       red <- web3_sha3 sha3 redeemedPrototype ;;
       redeemedEvents <- getPastLogs web3
         (LogQuery.mk (ContractConfig.address contract) block endBlock red) ;;
       forM depositedEvents (fun log => processDepositedEvent chainName contract log web3) ;;
       forM redeemedEvents (fun log => processRedeemedEvent chainName contract log web3) ;;
       logger LLog "Processed deposited and redeemed events"))
    (fun _ => logger LError "Error fetching events").

Definition storePreviousEventsForChain (config : BlockchainConfig.t)
    (fromBlock : option JsNumber) : M unit :=
  web3o <- getConnection (BlockchainConfig.name config) ;;
  match web3o with
  | None => logger LError "No Web3 connection"
  | Some web3 =>
      try_catch
        (let currentBlock := Chain.currentBlock web3 in
         let startBlock := js_or fromBlock (js_max (JNum 0) (JNum (currentBlock - 100000))) in
         logger LLog "Fetching events" ;;
         forM (BlockchainConfig.contracts config) (fun contract =>
           fetchAndStoreContractEvents web3 (BlockchainConfig.name config) contract
             startBlock currentBlock))
        (fun _ => logger LError "Error fetching previous events")
  end.

Definition connectToChain (config : BlockchainConfig.t) : M unit :=
  try_catch
    (if String.eqb (trim (BlockchainConfig.wssUrl config)) "" then
       throw (Error "WebSocket URL is empty")
     else
       match endpoint (BlockchainConfig.wssUrl config) with
       | None => throw (Error "getChainId")
       | Some web3 =>
           modify (fun s => set_web3Connections
                              (map_set (BlockchainConfig.name config) web3 (web3Connections s)) s) ;;
           logger LLog "Connected" ;;
           subscribeToEvents (BlockchainConfig.name config) (BlockchainConfig.contracts config)
       end)
    (fun e => logger LError "Failed to connect" ;; throw e).

Definition connectToMultipleChains (configs : list BlockchainConfig.t) : M unit :=
  logger LLog "Connecting to blockchains" ;;
  forM configs (fun config =>
    try_catch (connectToChain config) (fun _ => logger LError "Failed to connect")) ;;
  modify (set_connected true) ;;
  logger LLog "Connection setup completed".

Definition storePreviousEvents (configs : list BlockchainConfig.t)
    (fromBlock : option JsNumber) : M unit :=
  logger LLog "Starting to fetch and store previous events" ;;
  forM configs (fun config =>
    try_catch (storePreviousEventsForChain config fromBlock)
              (fun _ => logger LError "Failed to store previous events")) ;;
  logger LLog "Finished storing previous events".

(** [disconnect] is the same code as in the stock-manager service; there
    is no backfill timer to stop. *)
Variable unsubscribeOk : string -> bool.
Variable disconnectOk : string -> bool.

Definition onModuleDestroy : M unit := disconnect unsubscribeOk disconnectOk.

End Service.
End EventsSchema.

(** ** Sample inputs

    A node hashing the two prototypes to 111 and 222, the clock at
    2025-10-09T08:53:20Z, and a Deposited log of contract [0xabc] with
    payload (amount, tokenAmount, fee) = (5, 7, 1). *)
Definition ex_sha3 (s : string) : N :=
  if String.eqb s depositedPrototype then 111%N
  else if String.eqb s redeemedPrototype then 222%N else 0%N.

Definition ex_now : Z := 1760000000000.

Definition word (b : Byte.byte) : list Byte.byte := app (repeat Byte.x00 31) [b].

Definition ex_data : list Byte.byte := app (word Byte.x05) (app (word Byte.x07) (word Byte.x01)).

Definition ex_log (t0 : N) : RawLog.t :=
  RawLog.mk (Some "0xAbC") (Some [t0; 1%N; 2%N; 3%N]) (Some ex_data) (Some 1500) (Some "0xtx1").

(** The same log with its last topic missing. *)
Definition ex_log3 : RawLog.t :=
  RawLog.mk (Some "0xAbC") (Some [111%N; 1%N; 2%N]) (Some ex_data) (Some 1500) (Some "0xtx1").

(** The same log without a block number. *)
Definition ex_log_nobn : RawLog.t :=
  RawLog.mk (Some "0xAbC") (Some [111%N; 1%N; 2%N; 3%N]) (Some ex_data) None (Some "0xtx1").

Definition ex_chain : Chain.t :=
  Chain.mk 2500 [ex_log 111%N; ex_log 222%N] (fun _ => BlockAt 1700000000%N) true.

(** A node whose [getBlock] fails. *)
Definition ex_chain_down : Chain.t := Chain.mk 2500 [] (fun _ => BlockThrows) true.

Definition ex_contract : ContractConfig.t := ContractConfig.mk "0xabc" "AlloStocksManager".

Definition ex_config : BlockchainConfig.t :=
  BlockchainConfig.mk "bsc" "wss://x" 56 [ex_contract].

Definition st0 : St := mkSt [] [] [("bsc", ex_chain)] [] [] false false [ex_config] [].

(** Three networks, the second with a blank WebSocket URL, and a service
    with no connection yet. *)
Definition ex_endpoint (url : string) : option Chain.t :=
  if String.eqb url "wss://a" then Some ex_chain
  else if String.eqb url "wss://c" then Some ex_chain else None.

Definition ex_configs3 : list BlockchainConfig.t :=
  [BlockchainConfig.mk "a" "wss://a" 1 [ex_contract];
   BlockchainConfig.mk "b" "  " 2 [ex_contract];
   BlockchainConfig.mk "c" "wss://c" 3 [ex_contract]].

Definition st_empty : St := mkSt [] [] [] [] [] false false [] [].

(** ** Invariants and observations *)

(** The transaction hashes present in the [stock_manager_events] table (rows without one are skipped). *)
Definition smh_hashes (rows : list StockManagerEvent.t) : list string :=
  flat_map (fun r => match StockManagerEvent.transaction_hash r with
                     | Some h => [h] | None => [] end) rows.

(** The transaction hashes present in the [events] table. *)
Definition ev_hashes (rows : list Event.t) : list string :=
  flat_map (fun r => match Event.tx_hash r with Some h => [h] | None => [] end) rows.

(** Both tables only grow by appending rows, and a table whose transaction
    hashes were pairwise distinct keeps them distinct. *)
Definition store_grows (s s' : St) : Prop :=
  (exists l, stock_manager_events s' = (stock_manager_events s ++ l)%list) /\
  (exists l, events s' = (events s ++ l)%list) /\
  (NoDup (smh_hashes (stock_manager_events s)) -> NoDup (smh_hashes (stock_manager_events s'))) /\
  (NoDup (ev_hashes (events s)) -> NoDup (ev_hashes (events s'))).

(** A logger call. *)
Definition is_log (e : Effect) : Prop := match e with ELog _ _ => True | _ => False end.

(** [s'] is [s] with logger calls appended to the trace and nothing else changed. *)
Definition only_logs (s s' : St) : Prop :=
  exists l, s' = with_trace (trace s ++ l)%list s /\ Forall is_log l.

(** A computation that never rejects, whatever the state. *)
Definition nothrow {A} (m : M A) : Prop := forall s, exists a, fst (m s) = Ok a.

(** The block count [triggerBackfill] computes from its query parameter. *)
Definition requested_blockCount (blockCount : option string) : JsNumber :=
  match blockCount with
  | Some s => if String.eqb s "" then JNum 10000 else parseInt s
  | None => JNum 10000
  end.

(** The [fromBlockNumber] the controller's [storePreviousEvents] computes from
    its query parameter and body. *)
Definition requested_fromBlock (fromBlock : option string) (bodyFromBlock : option Z)
    : option JsNumber :=
  match fromBlock with
  | Some q => if String.eqb q "" then option_map JNum bodyFromBlock else Some (parseInt q)
  | None => option_map JNum bodyFromBlock
  end.

(** A call to [unsubscribe()] or [provider.disconnect()]. *)
Definition is_teardown (e : Effect) : bool :=
  match e with EUnsubscribe _ | EDisconnect _ => true | _ => false end.

(** The teardown calls of a trace, in order. *)
Definition teardown_calls (tr : list Effect) : list Effect := filter is_teardown tr.

(** ** Properties *)

(** The [i]-th 32-byte word of an ABI payload. *)
Definition payload_word (d : list Byte.byte) (i : nat) : N :=
  word_of_bytes (firstn 32 (Nat.iter i (skipn 32) d)).

Lemma decode_deposited d a b c :
  decode_params depositedInputs d [Some a; Some b; Some c] =
  if (96 <=? List.length d)%nat then
    Some [("user", VAddress (a mod 2 ^ 160)%N); ("assetToken", VAddress (b mod 2 ^ 160)%N);
          ("stablecoin", VAddress (c mod 2 ^ 160)%N);
          ("amount", VUint (payload_word d 0)); ("tokenAmount", VUint (payload_word d 1));
          ("fee", VUint (payload_word d 2))]
  else None.
Proof.
  unfold payload_word; cbn [decode_params depositedInputs AbiInput.indexed AbiInput.name
    AbiInput.type decode_word option_map Nat.iter].
  rewrite !length_skipn.
  destruct (Nat.ltb_spec (List.length d) 32);
  [destruct (Nat.leb_spec 96 (List.length d)); [lia|reflexivity]|].
  destruct (Nat.ltb_spec (List.length d - 32) 32);
  [destruct (Nat.leb_spec 96 (List.length d)); [lia|reflexivity]|].
  destruct (Nat.ltb_spec (List.length d - 32 - 32) 32);
  destruct (Nat.leb_spec 96 (List.length d)); try lia; reflexivity.
Qed.

Lemma decode_redeemed d a b c :
  decode_params redeemedInputs d [Some a; Some b; Some c] =
  if (96 <=? List.length d)%nat then
    Some [("user", VAddress (a mod 2 ^ 160)%N); ("assetToken", VAddress (b mod 2 ^ 160)%N);
          ("stablecoin", VAddress (c mod 2 ^ 160)%N);
          ("tokenAmount", VUint (payload_word d 0)); ("amount", VUint (payload_word d 1));
          ("fee", VUint (payload_word d 2))]
  else None.
Proof.
  unfold payload_word; cbn [decode_params redeemedInputs AbiInput.indexed AbiInput.name
    AbiInput.type decode_word option_map Nat.iter].
  rewrite !length_skipn.
  destruct (Nat.ltb_spec (List.length d) 32);
  [destruct (Nat.leb_spec 96 (List.length d)); [lia|reflexivity]|].
  destruct (Nat.ltb_spec (List.length d - 32) 32);
  [destruct (Nat.leb_spec 96 (List.length d)); [lia|reflexivity]|].
  destruct (Nat.ltb_spec (List.length d - 32 - 32) 32);
  destruct (Nat.leb_spec 96 (List.length d)); try lia; reflexivity.
Qed.

Ltac unfold_monad :=
  unfold try_catch, bind, logger, emit, modify, get, ret, throw in *.

Lemma storeEvent_run ev cn st :
  storeEventInDatabase ev cn st =
  match find_by_hash (BlockchainEventData.txHash ev) (stock_manager_events st) with
  | Some _ =>
      (Ok tt, with_trace (trace st ++ [EFindByTxHash (BlockchainEventData.txHash ev);
                                      ELog LWarn "Duplicate event detected, skipping"]) st)
  | None =>
      if row_accepted (dbEventOf ev) then
        (Ok tt, with_trace (trace st ++ [EFindByTxHash (BlockchainEventData.txHash ev);
                                        ECreate (dbEventOf ev);
                                        ELog LLog "event stored in database"])
                  (set_stock_manager_events (stock_manager_events st ++ [dbEventOf ev]) st))
      else
        (Ok tt, with_trace (trace st ++ [EFindByTxHash (BlockchainEventData.txHash ev);
                                        ECreate (dbEventOf ev);
                                        ELog LError "Error storing event in database"]) st)
  end.
Proof.
  unfold storeEventInDatabase, findByTxHash, create; unfold_monad.
  cbn -[find_by_hash dbEventOf row_accepted].
  destruct (find_by_hash _ _); cbn -[dbEventOf row_accepted];
    [|destruct (row_accepted (dbEventOf ev))]; cbn; rewrite <- !app_assoc; reflexivity.
Qed.

Lemma getBlockDate_run now web3 bn st :
  exists r tr,
    getBlockDateFromTimestamp now web3 bn st = (r, with_trace (trace st ++ tr) st) /\
    Forall (fun e => e = EGetBlock bn \/ e = ELog LWarn "Error getting block timestamp") tr /\
    (toISOString now <> None -> exists dt, r = Ok dt).
Proof.
  unfold getBlockDateFromTimestamp, nowISO; unfold_monad.
  cbn -[toISOString N_toString].
  destruct (toISOString now) as [dn|] eqn:En;
  destruct (Chain.getBlock web3 bn) as [| |ts]; cbn -[toISOString N_toString];
  try (destruct (ts =? 0)%N; cbn -[toISOString N_toString];
       try destruct (toISOString (Z.of_N ts * 1000)); cbn -[toISOString N_toString]);
  (eexists; eexists; split;
   [ cbn; rewrite <- ?app_assoc; reflexivity
   | split; [ repeat (apply Forall_cons; [first [left; reflexivity | right; reflexivity] | ]);
              apply Forall_nil
            | intros Hn; try (exfalso; apply Hn; reflexivity); eexists; reflexivity ] ]).
Qed.

Ltac run_getBlock :=
  match goal with
  | |- context [getBlockDateFromTimestamp ?n ?w ?b ?s] =>
      let r := fresh "r" in let tr := fresh "tr" in let E := fresh "E" in
      let Hq := fresh "Hq" in let Hok := fresh "Hok" in
      destruct (getBlockDate_run n w b s) as (r & tr & E & Hq & Hok); rewrite E
  end.

Ltac run_store :=
  match goal with
  | |- context [storeEventInDatabase ?ev ?cn ?s] => rewrite (storeEvent_run ev cn s)
  end.

(** Every row of the stock-manager table mirrors the payload of the log it
    comes from, in the ABI order of the event. *)
Definition mirrors_deposited (log : RawLog.t) (r : StockManagerEvent.t) : Prop :=
  exists d, RawLog.data log = Some d /\
    StockManagerEvent.amount_deposited r = Some (N_toString (payload_word d 0)) /\
    StockManagerEvent.tokens_minted r = Some (N_toString (payload_word d 1)) /\
    StockManagerEvent.tokens_redeemed r = Some "0" /\
    StockManagerEvent.amount_returned r = Some "0" /\
    StockManagerEvent.fee r = N_toString (payload_word d 2).

Definition mirrors_redeemed (log : RawLog.t) (r : StockManagerEvent.t) : Prop :=
  exists d, RawLog.data log = Some d /\
    StockManagerEvent.tokens_redeemed r = Some (N_toString (payload_word d 0)) /\
    StockManagerEvent.amount_returned r = Some (N_toString (payload_word d 1)) /\
    StockManagerEvent.amount_deposited r = Some "0" /\
    StockManagerEvent.tokens_minted r = Some "0" /\
    StockManagerEvent.fee r = N_toString (payload_word d 2).

Ltac no_rows := exists []; rewrite app_nil_r; split; [reflexivity | constructor].

(** C2: decoding a Deposited log whose payload words are (amount,
    tokenAmount, fee) = (A, B, F) persists at most one row, with
    amount_deposited = A, tokens_minted = B, tokens_redeemed = 0,
    amount_returned = 0 and fee = F; a Redeemed log, whose payload is read
    as (tokenAmount, amount, fee), persists tokens_redeemed = tokenAmount,
    amount_returned = amount, amount_deposited = 0, tokens_minted = 0 and
    fee = fee. *)
Theorem persisted_fields_mirror_payload now chainName contract log web3 st :
  (exists added,
     stock_manager_events (snd (processDepositedEvent now chainName contract log web3 st)) =
     (stock_manager_events st ++ added)%list /\
     Forall (mirrors_deposited log) added) /\
  (exists added,
     stock_manager_events (snd (processRedeemedEvent now chainName contract log web3 st)) =
     (stock_manager_events st ++ added)%list /\
     Forall (mirrors_redeemed log) added).
Proof.
  split.
  - unfold processDepositedEvent, topic_at, decodeLog; unfold_monad.
    destruct (log_is_valid log) eqn:Hv; cbn -[decode_params getBlockDateFromTimestamp
                                             storeEventInDatabase]; [|no_rows].
    destruct log as [addr [ts|] [d|] bn h]; cbn in Hv; try discriminate.
    destruct ts as [|t0 [|t1 [|t2 [|t3 rest]]]]; cbn in Hv; try discriminate.
    cbn -[decode_params getBlockDateFromTimestamp storeEventInDatabase].
    rewrite decode_deposited.
    destruct (96 <=? List.length d)%nat; cbn -[getBlockDateFromTimestamp storeEventInDatabase
                                              payload_word N_toString];
      [|no_rows].
    run_getBlock; destruct r as [[date timestamp]|e];
      cbn -[storeEventInDatabase payload_word N_toString]; [|no_rows].
    run_store.
    destruct (find_by_hash _ _); cbn -[payload_word N_toString dbEventOf row_accepted]; [no_rows|].
    destruct (row_accepted _); cbn -[payload_word N_toString dbEventOf]; [|no_rows].
    exists [dbEventOf (BlockchainEventData.mk chainName (ContractConfig.address contract)
              "Deposited"
              (Payload.mk (address_toString (t1 mod 2 ^ 160)) (address_toString (t2 mod 2 ^ 160))
                 (address_toString (t3 mod 2 ^ 160)) (N_toString (payload_word d 0))
                 (N_toString (payload_word d 1)) (N_toString (payload_word d 2)))
              bn h timestamp date)].
    split; [reflexivity|].
    repeat constructor. exists d; repeat split.
  - unfold processRedeemedEvent, topic_at, decodeLog; unfold_monad.
    destruct (log_is_valid log) eqn:Hv; cbn -[decode_params getBlockDateFromTimestamp
                                             storeEventInDatabase]; [|no_rows].
    destruct log as [addr [ts|] [d|] bn h]; cbn in Hv; try discriminate.
    destruct ts as [|t0 [|t1 [|t2 [|t3 rest]]]]; cbn in Hv; try discriminate.
    cbn -[decode_params getBlockDateFromTimestamp storeEventInDatabase].
    rewrite decode_redeemed.
    destruct (96 <=? List.length d)%nat; cbn -[getBlockDateFromTimestamp storeEventInDatabase
                                              payload_word N_toString];
      [|no_rows].
    run_getBlock; destruct r as [[date timestamp]|e];
      cbn -[storeEventInDatabase payload_word N_toString]; [|no_rows].
    run_store.
    destruct (find_by_hash _ _); cbn -[payload_word N_toString dbEventOf row_accepted]; [no_rows|].
    destruct (row_accepted _); cbn -[payload_word N_toString dbEventOf]; [|no_rows].
    eexists; split; [reflexivity|].
    repeat constructor. exists d; repeat split.
Qed.

Definition no_create (tr : list Effect) : Prop :=
  Forall (fun e => forall r, e <> ECreate r) tr.

Definition count_hash (h : string) (rows : list StockManagerEvent.t) : nat :=
  List.length (filter (hash_is h) rows).

Lemma dbEventOf_hash ev :
  StockManagerEvent.transaction_hash (dbEventOf ev) = BlockchainEventData.txHash ev.
Proof.
  unfold dbEventOf; cbv zeta.
  destruct (String.eqb _ "deposited"); [reflexivity|].
  destruct (String.eqb _ "redeemed"); reflexivity.
Qed.

Lemma getBlock_no_create bn tr :
  Forall (fun e => e = EGetBlock bn \/ e = ELog LWarn "Error getting block timestamp") tr ->
  no_create tr.
Proof.
  intros H; eapply Forall_impl; [|exact H]; intros e [-> | ->] r; discriminate.
Qed.

Lemma dbEventOf_accepted ev :
  BlockchainEventData.eventName ev = "Deposited" \/ BlockchainEventData.eventName ev = "Redeemed" ->
  row_accepted (dbEventOf ev) =
  int4_column (parseInt_num (BlockchainEventData.blockNumber ev)) &&
  present (BlockchainEventData.txHash ev).
Proof.
  unfold dbEventOf, row_accepted.
  intros [H|H]; rewrite H; cbn -[int4_column parseInt_num present]; rewrite !andb_true_r; reflexivity.
Qed.

Lemma with_trace_twice tr tr' s : with_trace tr (with_trace tr' s) = with_trace tr s.
Proof. reflexivity. Qed.

Lemma processDeposited_valid now cn c log web3 st d h :
  log_is_valid log = true -> RawLog.data log = Some d -> (96 <= List.length d)%nat ->
  RawLog.transactionHash log = Some h -> toISOString now <> None ->
  exists tr ev,
    no_create tr /\ BlockchainEventData.txHash ev = Some h /\
    row_accepted (dbEventOf ev) = int4_column (parseInt_num (RawLog.blockNumber log)) /\
    processDepositedEvent now cn c log web3 st =
      (Ok tt, with_trace
                (trace (snd (storeEventInDatabase ev (ContractConfig.name c)
                               (with_trace (trace st ++ tr) st))) ++
                 [ELog LLog "Deposited event"])
                (snd (storeEventInDatabase ev (ContractConfig.name c)
                        (with_trace (trace st ++ tr) st)))).
Proof.
  intros Hv Hd Hl Hh Hnow.
  unfold processDepositedEvent, topic_at, decodeLog; unfold_monad.
  rewrite Hv.
  destruct log as [addr [ts|] [d'|] bn h']; cbn in Hv, Hd, Hh; try discriminate.
  injection Hd as ->; subst h'.
  destruct ts as [|t0 [|t1 [|t2 [|t3 rest]]]]; cbn in Hv; try discriminate.
  cbn -[decode_params getBlockDateFromTimestamp storeEventInDatabase address_toString].
  rewrite decode_deposited.
  destruct (Nat.leb_spec 96 (List.length d)); [|lia].
  cbn -[getBlockDateFromTimestamp storeEventInDatabase payload_word N_toString address_toString].
  run_getBlock; destruct (Hok Hnow) as [[date timestamp] ->].
  destruct st as [sm ev cs ss ch cd ba bc trs]; cbn -[storeEventInDatabase payload_word N_toString address_toString].
  rewrite <- app_assoc; cbn [app]; rewrite with_trace_twice.
  match goal with |- context [storeEventInDatabase ?ev _ _] => exists (EDecodeLog :: tr), ev end.
  split; [constructor; [discriminate | exact (getBlock_no_create _ _ Hq)]|].
  split; [reflexivity|].
  split; [rewrite dbEventOf_accepted by (cbn; auto);
          cbn [present BlockchainEventData.blockNumber BlockchainEventData.txHash RawLog.blockNumber];
          apply andb_true_r|].
  rewrite storeEvent_run; cbn -[payload_word N_toString dbEventOf find_by_hash address_toString
                                row_accepted].
  destruct (find_by_hash _ _); [|destruct (row_accepted _)]; reflexivity.
Qed.

Lemma processRedeemed_valid now cn c log web3 st d h :
  log_is_valid log = true -> RawLog.data log = Some d -> (96 <= List.length d)%nat ->
  RawLog.transactionHash log = Some h -> toISOString now <> None ->
  exists tr ev,
    no_create tr /\ BlockchainEventData.txHash ev = Some h /\
    row_accepted (dbEventOf ev) = int4_column (parseInt_num (RawLog.blockNumber log)) /\
    processRedeemedEvent now cn c log web3 st =
      (Ok tt, with_trace
                (trace (snd (storeEventInDatabase ev (ContractConfig.name c)
                               (with_trace (trace st ++ tr) st))) ++
                 [ELog LLog "Redeemed event"])
                (snd (storeEventInDatabase ev (ContractConfig.name c)
                        (with_trace (trace st ++ tr) st)))).
Proof.
  intros Hv Hd Hl Hh Hnow.
  unfold processRedeemedEvent, topic_at, decodeLog; unfold_monad.
  rewrite Hv.
  destruct log as [addr [ts|] [d'|] bn h']; cbn in Hv, Hd, Hh; try discriminate.
  injection Hd as ->; subst h'.
  destruct ts as [|t0 [|t1 [|t2 [|t3 rest]]]]; cbn in Hv; try discriminate.
  cbn -[decode_params getBlockDateFromTimestamp storeEventInDatabase address_toString].
  rewrite decode_redeemed.
  destruct (Nat.leb_spec 96 (List.length d)); [|lia].
  cbn -[getBlockDateFromTimestamp storeEventInDatabase payload_word N_toString address_toString].
  run_getBlock; destruct (Hok Hnow) as [[date timestamp] ->].
  destruct st as [sm ev cs ss ch cd ba bc trs]; cbn -[storeEventInDatabase payload_word N_toString address_toString].
  rewrite <- app_assoc; cbn [app]; rewrite with_trace_twice.
  match goal with |- context [storeEventInDatabase ?ev _ _] => exists (EDecodeLog :: tr), ev end.
  split; [constructor; [discriminate | exact (getBlock_no_create _ _ Hq)]|].
  split; [reflexivity|].
  split; [rewrite dbEventOf_accepted by (cbn; auto);
          cbn [present BlockchainEventData.blockNumber BlockchainEventData.txHash RawLog.blockNumber];
          apply andb_true_r|].
  rewrite storeEvent_run; cbn -[payload_word N_toString dbEventOf find_by_hash address_toString
                                row_accepted].
  destruct (find_by_hash _ _); [|destruct (row_accepted _)]; reflexivity.
Qed.

Lemma count_hash_zero h rows : count_hash h rows = 0%nat -> find (hash_is h) rows = None.
Proof.
  unfold count_hash; induction rows as [|r rows IH]; [reflexivity|].
  cbn; destruct (hash_is h r); [discriminate|exact IH].
Qed.

Lemma find_app_hit (f : StockManagerEvent.t -> bool) rows r :
  find f rows = None -> f r = true -> find f (rows ++ [r]) = Some r.
Proof.
  induction rows as [|x rows IH]; cbn; [intros _ ->; reflexivity|].
  destruct (f x); [discriminate|exact IH].
Qed.

Lemma count_hash_app h rows r :
  count_hash h (rows ++ [r]) = (count_hash h rows + if hash_is h r then 1 else 0)%nat.
Proof.
  unfold count_hash; rewrite filter_app, length_app; cbn; destruct (hash_is h r); reflexivity.
Qed.

Lemma dbEventOf_hash_is ev h :
  BlockchainEventData.txHash ev = Some h -> hash_is h (dbEventOf ev) = true.
Proof.
  intros He; unfold hash_is; rewrite dbEventOf_hash, He; apply String.eqb_refl.
Qed.

Ltac dedup_first_step H Hnone Hb :=
  destruct H as (tr & ev & _ & Hev & Hacc & E); rewrite E;
  rewrite storeEvent_run; cbn -[dbEventOf find_by_hash row_accepted];
  rewrite Hev, Hnone, Hacc, Hb; cbn -[dbEventOf];
  eexists; eexists; split; [reflexivity|];
  split; [reflexivity | apply dbEventOf_hash_is, Hev].

Lemma dedup_first now cn c log web3 kind st d h :
  log_is_valid log = true -> RawLog.data log = Some d -> (96 <= List.length d)%nat ->
  RawLog.transactionHash log = Some h -> toISOString now <> None ->
  int4_column (parseInt_num (RawLog.blockNumber log)) = true ->
  find_by_hash (Some h) (stock_manager_events st) = None ->
  exists s1 row,
    processEventWithDeduplication now cn c log web3 kind st = (Ok true, s1) /\
    stock_manager_events s1 = (stock_manager_events st ++ [row])%list /\
    hash_is h row = true.
Proof.
  intros Hv Hd Hl Hh Hnow Hb Hnone.
  unfold processEventWithDeduplication, findByTxHash; unfold_monad.
  rewrite Hh; cbn -[find_by_hash processDepositedEvent processRedeemedEvent].
  rewrite Hnone.
  destruct kind.
  - dedup_first_step (processDeposited_valid now cn c log web3
      (with_trace (trace st ++ [EFindByTxHash (Some h)]) st) d h Hv Hd Hl Hh Hnow) Hnone Hb.
  - dedup_first_step (processRedeemed_valid now cn c log web3
      (with_trace (trace st ++ [EFindByTxHash (Some h)]) st) d h Hv Hd Hl Hh Hnow) Hnone Hb.
Qed.

Lemma dedup_hit now cn c log web3 kind st h r :
  RawLog.transactionHash log = Some h ->
  find_by_hash (Some h) (stock_manager_events st) = Some r ->
  processEventWithDeduplication now cn c log web3 kind st =
  (Ok false, with_trace (trace st ++ [EFindByTxHash (Some h)]) st).
Proof.
  intros Hh Hf.
  unfold processEventWithDeduplication, findByTxHash; unfold_monad.
  rewrite Hh; cbn -[find_by_hash]; rewrite Hf; reflexivity.
Qed.

(** C1: for a well-formed log whose payload decodes, whose block number
    fits the [integer] column, whose transaction hash [h] is not yet
    stored, and a clock [toISOString] accepts, the deduplicating ingestion
    run twice stores exactly one row: the first run returns [true] and
    appends one row with hash [h]; the second looks [h] up with
    [findByTxHash], finds it, writes nothing and returns [false]
    (skipped). *)
Theorem ingestion_idempotent_per_hash now cn c log web3 kind st d h
    (Hv : log_is_valid log = true) (Hd : RawLog.data log = Some d)
    (Hl : (96 <= List.length d)%nat) (Hh : RawLog.transactionHash log = Some h)
    (Hnow : toISOString now <> None)
    (Hb : int4_column (parseInt_num (RawLog.blockNumber log)) = true)
    (Hfresh : count_hash h (stock_manager_events st) = 0%nat) :
  let run1 := processEventWithDeduplication now cn c log web3 kind st in
  let run2 := processEventWithDeduplication now cn c log web3 kind (snd run1) in
  fst run1 = Ok true /\
  (exists row, stock_manager_events (snd run1) = (stock_manager_events st ++ [row])%list /\
               hash_is h row = true) /\
  run2 = (Ok false, with_trace (trace (snd run1) ++ [EFindByTxHash (Some h)]) (snd run1)) /\
  stock_manager_events (snd run2) = stock_manager_events (snd run1) /\
  count_hash h (stock_manager_events (snd run2)) = 1%nat.
Proof.
  cbv zeta.
  destruct (dedup_first now cn c log web3 kind st d h Hv Hd Hl Hh Hnow Hb
              (count_hash_zero h _ Hfresh)) as (s1 & row & E1 & Hs1 & Hrow).
  rewrite E1; cbn [fst snd].
  assert (Hf : find_by_hash (Some h) (stock_manager_events s1) = Some row).
  { rewrite Hs1; apply find_app_hit; [apply count_hash_zero, Hfresh | exact Hrow]. }
  rewrite (dedup_hit now cn c log web3 kind s1 h row Hh Hf).
  split; [reflexivity|]. split; [exists row; split; assumption|].
  split; [reflexivity|]. split; [reflexivity|].
  cbn [snd]; change (stock_manager_events (with_trace ?t s1)) with (stock_manager_events s1).
  rewrite Hs1, count_hash_app, Hfresh, Hrow; reflexivity.
Qed.

Lemma ingestion_idempotent_per_hash_witness :
  count_hash "0xtx1"
    (stock_manager_events
       (snd (processEventWithDeduplication ex_now "bsc" ex_contract (ex_log 111) ex_chain Deposited
               (snd (processEventWithDeduplication ex_now "bsc" ex_contract (ex_log 111) ex_chain
                       Deposited st0))))) = 1%nat.
Proof.
  apply (ingestion_idempotent_per_hash ex_now "bsc" ex_contract (ex_log 111) ex_chain Deposited
           st0 ex_data "0xtx1"); try reflexivity.
  all: vm_compute; first [lia | discriminate | intros H; discriminate H].
Defined.

(** A log with only three topics fails the validity check on both runs:
    nothing is stored, and the second run returns [true], not skipped. *)
Lemma ingestion_malformed_log_counterexample :
  let run1 := processEventWithDeduplication ex_now "bsc" ex_contract ex_log3 ex_chain Deposited st0 in
  let run2 := processEventWithDeduplication ex_now "bsc" ex_contract ex_log3 ex_chain Deposited
                (snd run1) in
  count_hash "0xtx1" (stock_manager_events (snd run2)) = 0%nat /\ fst run2 = Ok true.
Proof. vm_compute; split; reflexivity. Qed.

(** C10: an explicit [fromBlock] of 0 is falsy, so [fromBlock || default]
    replaces it by the default: the scan of every contract starts at
    [max(0, currentBlock - 80000)] (the events-schema service: [max(0,
    currentBlock - 100000)]), exactly as when [fromBlock] is omitted. *)
Theorem zero_fromBlock_uses_default sha3 now config web3 st
    (Hc : map_get (BlockchainConfig.name config) (web3Connections st) = Some web3) :
  let cur := Chain.currentBlock web3 in
  let name := BlockchainConfig.name config in
  storePreviousEventsForChain sha3 now config (Some (JNum 0)) st =
  storePreviousEventsForChain sha3 now config None st /\
  storePreviousEventsForChain sha3 now config (Some (JNum 0)) st =
  try_catch
    (forM (BlockchainConfig.contracts config) (fun contract =>
       fetchAndStoreContractEvents sha3 now web3 name contract
         (JNum (Z.max 0 (cur - 80000))) cur))
    (fun _ => logger LError "Error fetching previous events") st /\
  EventsSchema.storePreviousEventsForChain sha3 now config (Some (JNum 0)) st =
  EventsSchema.storePreviousEventsForChain sha3 now config None st /\
  EventsSchema.storePreviousEventsForChain sha3 now config (Some (JNum 0)) st =
  try_catch
    (logger LLog "Fetching events" ;;
     forM (BlockchainConfig.contracts config) (fun contract =>
       EventsSchema.fetchAndStoreContractEvents sha3 now web3 name contract
         (JNum (Z.max 0 (cur - 100000))) cur))
    (fun _ => logger LError "Error fetching previous events") st.
Proof.
  unfold storePreviousEventsForChain, EventsSchema.storePreviousEventsForChain,
    getConnection, bind, get, ret.
  cbv beta iota zeta.
  rewrite Hc; repeat split.
Qed.

Lemma zero_fromBlock_uses_default_witness :
  storePreviousEventsForChain ex_sha3 ex_now ex_config (Some (JNum 0)) st0 =
  storePreviousEventsForChain ex_sha3 ex_now ex_config None st0.
Proof.
  apply (zero_fromBlock_uses_default ex_sha3 ex_now ex_config ex_chain st0); reflexivity.
Defined.

(** The effects of a log whose first topic is neither signature, once it
    reaches the comparison: the two prototype hashes and the debug line. *)
Definition unknown_signature_trace : list Effect :=
  [ESha3 depositedPrototype; ESha3 redeemedPrototype; ELog LDebug "Unknown event signature"].

Ltac close_case :=
  eexists; split;
  [ cbn; rewrite ?with_trace_twice, <- ?app_assoc; reflexivity
  | cbn; repeat (first [left; reflexivity | right]) ].

(** C5: when [topics[0]] is neither [sha3] of the Deposited prototype nor
    that of the Redeemed prototype, [processLog] of either service attempts
    no ABI decode and changes no table: it only adds one of these effect
    sequences to the trace. A log that reaches the comparison (address
    present and of a configured contract, a connection to the chain,
    [topics] present) gets the two hashes and the debug line "Unknown event
    signature". Otherwise it gets a warning ("Log object missing address
    property", stock-manager service only; "Received log for unknown
    contract") or an error ("No Web3 connection"; "Error processing log"
    when [topics] is absent). *)
Theorem unknown_signature_not_decoded sha3 now cn contracts log st
    (Hunk : forall t, log_topic0 log = Some t ->
            t <> sha3 depositedPrototype /\ t <> sha3 redeemedPrototype) :
  (exists tr, processLog sha3 now cn contracts log st = (Ok tt, with_trace (trace st ++ tr) st) /\
              In tr [[ELog LWarn "Log object missing address property"];
                     [ELog LWarn "Received log for unknown contract"];
                     [ELog LError "No Web3 connection"];
                     [ELog LError "Error processing log"];
                     unknown_signature_trace]) /\
  (exists tr, EventsSchema.processLog sha3 now cn contracts log st =
              (Ok tt, with_trace (trace st ++ tr) st) /\
              In tr [[ELog LWarn "Received log for unknown contract"];
                     [ELog LError "No Web3 connection"];
                     [ELog LError "Error processing log"];
                     unknown_signature_trace]) /\
  (forall contract web3 ts,
     truthy_str (option_map toLowerCase (RawLog.address log)) = true ->
     find (contract_matches (option_map toLowerCase (RawLog.address log))) contracts =
       Some contract ->
     map_get cn (web3Connections st) = Some web3 ->
     RawLog.topics log = Some ts ->
     processLog sha3 now cn contracts log st =
       (Ok tt, with_trace (trace st ++ unknown_signature_trace) st) /\
     EventsSchema.processLog sha3 now cn contracts log st =
       (Ok tt, with_trace (trace st ++ unknown_signature_trace) st)).
Proof.
  unfold log_topic0 in Hunk.
  split; [|split].
  - unfold processLog, getConnection, topic_at, web3_sha3; unfold_monad.
    destruct (truthy_str _); cbn -[toLowerCase]; [|close_case].
    destruct (find _ contracts) as [contract|]; cbn -[toLowerCase]; [|close_case].
    destruct (map_get cn (web3Connections st)) as [web3|]; cbn -[toLowerCase]; [|close_case].
    destruct (RawLog.topics log) as [[|t ts]|]; cbn -[toLowerCase]; try close_case.
    destruct (Hunk t eq_refl) as [Hd Hr].
    apply N.eqb_neq in Hd, Hr; rewrite Hd, Hr; close_case.
  - unfold EventsSchema.processLog, getConnection, topic_at, web3_sha3; unfold_monad.
    destruct (find _ contracts) as [contract|]; cbn -[toLowerCase]; [|close_case].
    destruct (map_get cn (web3Connections st)) as [web3|]; cbn -[toLowerCase]; [|close_case].
    destruct (RawLog.topics log) as [[|t ts]|]; cbn -[toLowerCase]; try close_case.
    destruct (Hunk t eq_refl) as [Hd Hr].
    apply N.eqb_neq in Hd, Hr; rewrite Hd, Hr; close_case.
  - intros contract web3 ts Haddr Hfind Hc Ht.
    unfold processLog, EventsSchema.processLog, getConnection, topic_at, web3_sha3; cbv zeta.
    rewrite Haddr, Hfind, Ht; unfold_monad; cbv beta iota delta [negb].
    rewrite Hc; cbv beta iota.
    rewrite Ht in Hunk; destruct ts as [|t ts]; cbn [nth_error].
    + split; cbn; rewrite <- !app_assoc; reflexivity.
    + destruct (Hunk t eq_refl) as [Hd Hr].
      apply N.eqb_neq in Hd, Hr; rewrite Hd, Hr.
      split; cbn; rewrite <- !app_assoc; reflexivity.
Qed.

Lemma unknown_signature_not_decoded_witness :
  processLog ex_sha3 ex_now "bsc" [ex_contract] (ex_log 333) st0 =
  (Ok tt, with_trace (trace st0 ++ unknown_signature_trace) st0).
Proof.
  assert (Hunk : forall t, log_topic0 (ex_log 333) = Some t ->
                 t <> ex_sha3 depositedPrototype /\ t <> ex_sha3 redeemedPrototype)
    by (intros t Ht; vm_compute in Ht; injection Ht as <-; split; vm_compute; discriminate).
  exact (proj1 (proj2 (proj2
    (unknown_signature_not_decoded ex_sha3 ex_now "bsc" [ex_contract] (ex_log 333) st0 Hunk))
    ex_contract ex_chain [333; 1; 2; 3]%N eq_refl eq_refl eq_refl eq_refl)).
Defined.

(** A log of another contract is dropped with a warning, not at debug
    level. *)
Definition ex_log_other : RawLog.t :=
  RawLog.mk (Some "0xDef") (Some [333%N; 1%N; 2%N; 3%N]) (Some ex_data) (Some 1500) (Some "0xtx2").

Lemma unknown_contract_warning_counterexample :
  processLog ex_sha3 ex_now "bsc" [ex_contract] ex_log_other st0 =
  (Ok tt, with_trace (trace st0 ++ [ELog LWarn "Received log for unknown contract"]) st0) /\
  EventsSchema.processLog ex_sha3 ex_now "bsc" [ex_contract] ex_log_other st0 =
  (Ok tt, with_trace (trace st0 ++ [ELog LWarn "Received log for unknown contract"]) st0).
Proof. split; vm_compute; reflexivity. Qed.

(** The queries a run issues to [getPastLogs], oldest first. *)
Definition past_log_queries (tr : list Effect) : list LogQuery.t :=
  flat_map (fun e => match e with EGetPastLogs q => [q] | _ => [] end) tr.


(** The blocks [a, a+1, ..., b]. *)
Fixpoint zrange_n (a : Z) (n : nat) : list Z :=
  match n with O => [] | S n' => a :: zrange_n (a + 1) n' end.

Definition zrange (a b : Z) : list Z := zrange_n a (Z.to_nat (b - a + 1)).

Lemma zrange_n_app a n k :
  zrange_n a (n + k) = (zrange_n a n ++ zrange_n (a + Z.of_nat n) k)%list.
Proof.
  revert a; induction n as [|n IH]; intros a; cbn.
  - now rewrite Z.add_0_r.
  - rewrite IH; do 3 f_equal; lia.
Qed.

Lemma zrange_split a m b :
  a - 1 <= m <= b -> zrange a b = (zrange a m ++ zrange (m + 1) b)%list.
Proof.
  intros H; unfold zrange.
  replace (Z.to_nat (b - a + 1)) with (Z.to_nat (m - a + 1) + Z.to_nat (b - (m + 1) + 1))%nat
    by lia.
  rewrite zrange_n_app; do 2 f_equal; lia.
Qed.

Lemma zrange_empty a b : b < a -> zrange a b = [].
Proof. intros H; unfold zrange; replace (Z.to_nat (b - a + 1)) with O by lia; reflexivity. Qed.

Lemma windows_loop_cover fuel block toBlock :
  (Z.to_nat (toBlock - block + 1) <= fuel)%nat ->
  flat_map (fun w => zrange (fst w) (snd w)) (windows_loop fuel block toBlock) =
  zrange block toBlock.
Proof.
  revert block; induction fuel as [|fuel IH]; intros block Hf; cbn [windows_loop].
  - symmetry; apply zrange_empty; lia.
  - destruct (Z.leb_spec block toBlock); [|symmetry; apply zrange_empty; lia].
    cbn [flat_map fst snd]; unfold batchSize in *.
    rewrite IH by lia.
    destruct (Z.min_spec (block + 1000 - 1) toBlock) as [[Hm ->]|[Hm ->]].
    + rewrite (zrange_split block (block + 1000 - 1) toBlock) by lia.
      do 2 f_equal; lia.
    + rewrite (zrange_empty (block + 1000)) by lia.
      now rewrite app_nil_r.
Qed.

Lemma windows_loop_bounds fuel block toBlock :
  Forall (fun w => block <= fst w <= snd w /\ snd w <= toBlock /\ snd w - fst w < batchSize)
    (windows_loop fuel block toBlock).
Proof.
  revert block; induction fuel as [|fuel IH]; intros block; cbn; [constructor|].
  destruct (Z.leb_spec block toBlock); [|constructor].
  constructor; [cbn; unfold batchSize; lia|].
  eapply Forall_impl; [|apply IH]; cbn; unfold batchSize; intros w; lia.
Qed.

(** C3: the windows of the backfill loop over [[fromBlock, toBlock]]
    (batch size 1000) lie in the range, span at most 1000 blocks each,
    and together list every block of the range exactly once and in order;
    over [[1000, 2500]] they are [[1000,1999]] and [[2000,2500]], each
    queried by two [getPastLogs] calls (one per event). *)
Theorem backfill_windows_partition fromBlock toBlock :
  flat_map (fun w => zrange (fst w) (snd w)) (windows (JNum fromBlock) toBlock) =
  zrange fromBlock toBlock /\
  Forall (fun w => fromBlock <= fst w <= snd w /\ snd w <= toBlock /\ snd w - fst w < batchSize)
    (windows (JNum fromBlock) toBlock) /\
  windows (JNum 1000) 2500 = [(1000, 1999); (2000, 2500)] /\
  map (fun q => (LogQuery.fromBlock q, LogQuery.toBlock q))
    (past_log_queries (trace (snd
      (fetchAndStoreContractEventsWithDeduplication ex_sha3 ex_now ex_chain "bsc" ex_contract
         (JNum 1000) 2500 st0)))) =
  [(1000, 1999); (1000, 1999); (2000, 2500); (2000, 2500)].
Proof.
  split; [apply windows_loop_cover; lia|].
  split; [apply windows_loop_bounds|].
  split; [reflexivity | vm_compute; reflexivity].
Qed.

Lemma backfill_window_count_counterexample :
  List.length (windows (JNum 1000) 2500) = 2%nat /\
  List.length (past_log_queries (trace (snd
    (fetchAndStoreContractEventsWithDeduplication ex_sha3 ex_now ex_chain "bsc" ex_contract
       (JNum 1000) 2500 st0)))) = 4%nat.
Proof. vm_compute; split; reflexivity. Qed.

(** The response of the controller to an out-of-range [blockCount]. *)
Definition bounds_rejection (st : St) : Result BackfillResponse * St :=
  (Throw (BadRequestException "Block count must be between 1 and 50000"),
   with_trace (trace st ++ [ELog LLog "Received request to trigger backfill";
                            ELog LError "Error triggering backfill"]) st).

Lemma triggerBackfill_out_of_range sha3 now st s n :
  s <> "" -> parseInt s = JNum n -> n <= 0 \/ 50000 < n ->
  triggerBackfill sha3 now (Some s) st = bounds_rejection st.
Proof.
  intros Hs Hp Hn.
  unfold triggerBackfill, bounds_rejection; unfold_monad.
  apply String.eqb_neq in Hs; cbn -[parseInt]; rewrite Hs, Hp; cbn.
  destruct (Z.leb_spec n 0); destruct (Z.ltb_spec 50000 n); try lia;
    cbn; rewrite ?with_trace_twice, <- ?app_assoc; reflexivity.
Qed.

(** C4: the bounds 1..50000 are checked by the controller
    ([triggerBackfill]), which answers [blockCount = 0] and [blockCount =
    50001] (and any other parsed count outside the bounds) with a
    [BadRequestException] before any query or decode; and
    [backfillLastBlocks] with 10000 blocks scans from [max(0,
    currentBlock - 10000)] to [currentBlock]. *)
Theorem manual_backfill_bounds sha3 now config web3 st
    (Hc : map_get (BlockchainConfig.name config) (web3Connections st) = Some web3) :
  triggerBackfill sha3 now (Some "0") st = bounds_rejection st /\
  triggerBackfill sha3 now (Some "50001") st = bounds_rejection st /\
  (forall s n, s <> "" -> parseInt s = JNum n -> n <= 0 \/ 50000 < n ->
     triggerBackfill sha3 now (Some s) st = bounds_rejection st) /\
  backfillLastBlocks sha3 now config (JNum 10000) st =
  try_catch
    (forM (BlockchainConfig.contracts config) (fun contract =>
       fetchAndStoreContractEventsWithDeduplication sha3 now web3
         (BlockchainConfig.name config) contract
         (JNum (Z.max 0 (Chain.currentBlock web3 - 10000))) (Chain.currentBlock web3)))
    (fun _ => logger LError "Error during backfill") st.
Proof.
  split; [apply (triggerBackfill_out_of_range _ _ _ _ 0); [discriminate | reflexivity | lia]|].
  split; [apply (triggerBackfill_out_of_range _ _ _ _ 50001); [discriminate | reflexivity | lia]|].
  split; [exact (triggerBackfill_out_of_range sha3 now st)|].
  unfold backfillLastBlocks, getConnection, bind, get, ret.
  cbv beta iota zeta.
  rewrite Hc; reflexivity.
Qed.

Lemma manual_backfill_bounds_witness :
  triggerBackfill ex_sha3 ex_now (Some "0") st0 = bounds_rejection st0.
Proof.
  apply (manual_backfill_bounds ex_sha3 ex_now ex_config ex_chain st0); reflexivity.
Defined.

(** [triggerManualBackfill] itself takes any count: with 0 it queries the
    node for the window [currentBlock, currentBlock]. *)
Lemma manual_backfill_zero_counterexample :
  map (fun q => (LogQuery.fromBlock q, LogQuery.toBlock q))
    (past_log_queries (trace (snd (triggerManualBackfill ex_sha3 ex_now (JNum 0) st0)))) =
  [(2500, 2500); (2500, 2500)].
Proof. vm_compute; reflexivity. Qed.

(** The number of times a run hashes [s], oldest first. *)
Definition sha3_calls (s : string) (tr : list Effect) : nat :=
  List.length (filter (fun e => match e with ESha3 s' => String.eqb s s' | _ => false end) tr).

(** C6: [processLog] decides the event kind by comparing [topics[0]]
    with [sha3] of the Deposited prototype, then with [sha3] of the
    Redeemed prototype, and computes both hashes anew on every call,
    before the comparison. This holds for the [processLog] of both
    services. *)
Theorem event_kind_dispatch sha3 now cn contracts log st contract web3 t ts
    (Haddr : truthy_str (option_map toLowerCase (RawLog.address log)) = true)
    (Hfind : find (contract_matches (option_map toLowerCase (RawLog.address log))) contracts =
             Some contract)
    (Hc : map_get cn (web3Connections st) = Some web3)
    (Ht : RawLog.topics log = Some (t :: ts)) :
  processLog sha3 now cn contracts log st =
  try_catch
    (if N.eqb t (sha3 depositedPrototype) then processDepositedEvent now cn contract log web3
     else if N.eqb t (sha3 redeemedPrototype) then processRedeemedEvent now cn contract log web3
     else logger LDebug "Unknown event signature")
    (fun _ => logger LError "Error processing log")
    (with_trace (trace st ++ [ESha3 depositedPrototype; ESha3 redeemedPrototype]) st) /\
  EventsSchema.processLog sha3 now cn contracts log st =
  try_catch
    (if N.eqb t (sha3 depositedPrototype)
     then EventsSchema.processDepositedEvent now cn contract log web3
     else if N.eqb t (sha3 redeemedPrototype)
     then EventsSchema.processRedeemedEvent now cn contract log web3
     else logger LDebug "Unknown event signature")
    (fun _ => logger LError "Error processing log")
    (with_trace (trace st ++ [ESha3 depositedPrototype; ESha3 redeemedPrototype]) st).
Proof.
  split.
  - unfold processLog, getConnection, topic_at, web3_sha3; cbv zeta.
    rewrite Haddr, Hfind, Ht; unfold_monad; cbv beta iota delta [negb].
    rewrite Hc; cbv beta iota.
    cbn [nth_error trace with_trace]; rewrite <- app_assoc; reflexivity.
  - unfold EventsSchema.processLog, getConnection, topic_at, web3_sha3; cbv zeta.
    rewrite Hfind, Ht; unfold_monad; cbv beta iota.
    rewrite Hc; cbv beta iota.
    cbn [nth_error trace with_trace]; rewrite <- app_assoc; reflexivity.
Qed.

Lemma event_kind_dispatch_witness :
  processLog ex_sha3 ex_now "bsc" [ex_contract] (ex_log 333) st0 =
  try_catch
    (if N.eqb 333 (ex_sha3 depositedPrototype)
     then processDepositedEvent ex_now "bsc" ex_contract (ex_log 333) ex_chain
     else if N.eqb 333 (ex_sha3 redeemedPrototype)
     then processRedeemedEvent ex_now "bsc" ex_contract (ex_log 333) ex_chain
     else logger LDebug "Unknown event signature")
    (fun _ => logger LError "Error processing log")
    (with_trace (trace st0 ++ [ESha3 depositedPrototype; ESha3 redeemedPrototype]) st0).
Proof.
  exact (proj1 (event_kind_dispatch ex_sha3 ex_now "bsc" [ex_contract] (ex_log 333) st0 ex_contract
                  ex_chain 333 [1; 2; 3]%N eq_refl eq_refl eq_refl eq_refl)).
Defined.

(** Two Deposited logs make [processLog] hash the Deposited prototype
    twice, in either service. *)
Lemma sha3_per_log_counterexample :
  sha3_calls depositedPrototype
    (trace (snd ((processLog ex_sha3 ex_now "bsc" [ex_contract] (ex_log 111) ;;
                  processLog ex_sha3 ex_now "bsc" [ex_contract] (ex_log 111)) st0))) = 2%nat /\
  sha3_calls depositedPrototype
    (trace (snd ((EventsSchema.processLog ex_sha3 ex_now "bsc" [ex_contract] (ex_log 111) ;;
                  EventsSchema.processLog ex_sha3 ex_now "bsc" [ex_contract] (ex_log 111)) st0))) = 2%nat.
Proof. split; vm_compute; reflexivity. Qed.

(** The number of ABI decodes a run attempts. *)
Definition decode_count (tr : list Effect) : nat :=
  List.length (filter (fun e => match e with EDecodeLog => true | _ => false end) tr).

(** C7: the stock-manager service rejects a log that lacks data, has
    fewer than 4 topics, or has a falsy block number or transaction hash:
    it only logs a warning, with no decode and no write. The events-schema
    service has no such check: it decodes a log without a block number,
    tries to save a row whose [block_number] is [NaN], which the database
    refuses (the error is only logged, no row is stored), and still emits
    the log as an [event]. *)
Theorem malformed_log_handling now cn c log web3 st (Hinv : log_is_valid log = false) :
  processDepositedEvent now cn c log web3 st =
  (Ok tt, with_trace (trace st ++ [ELog LWarn "Invalid log object for Deposited event processing"]) st) /\
  processRedeemedEvent now cn c log web3 st =
  (Ok tt, with_trace (trace st ++ [ELog LWarn "Invalid log object for Redeemed event processing"]) st) /\
  (let r := EventsSchema.processDepositedEvent ex_now "bsc" ex_contract ex_log_nobn ex_chain st0 in
   log_is_valid ex_log_nobn = false /\
   decode_count (trace (snd r)) = 1%nat /\
   (exists row, In (ECreateEvent row) (trace (snd r)) /\ Event.block_number row = JNaN) /\
   In (ELog LError "Error storing event in database") (trace (snd r)) /\
   events (snd r) = events st0 /\
   (exists ev, In (EEmit ev) (trace (snd r)))).
Proof.
  split; [|split].
  - unfold processDepositedEvent; unfold_monad; rewrite Hinv; reflexivity.
  - unfold processRedeemedEvent; unfold_monad; rewrite Hinv; reflexivity.
  - cbv zeta; split; [reflexivity|].
    split; [vm_compute; reflexivity|].
    split; [eexists; split; [vm_compute; repeat (first [left; reflexivity | right])|reflexivity]|].
    split; [vm_compute; repeat (first [left; reflexivity | right])|].
    split; [vm_compute; reflexivity|].
    eexists; vm_compute; repeat (first [left; reflexivity | right]).
Qed.

Lemma malformed_log_handling_witness :
  processDepositedEvent ex_now "bsc" ex_contract ex_log3 ex_chain st0 =
  (Ok tt, with_trace (trace st0 ++ [ELog LWarn "Invalid log object for Deposited event processing"]) st0).
Proof.
  exact (proj1 (malformed_log_handling ex_now "bsc" ex_contract ex_log3 ex_chain st0 eq_refl)).
Defined.

(** A string of decimal digits only, as [block.timestamp.toString()]
    gives. *)
Fixpoint is_digits (s : string) : bool :=
  match s with
  | EmptyString => true
  | String c r => (48 <=? nat_of_ascii c)%nat && (nat_of_ascii c <=? 57)%nat && is_digits r
  end.

(** The [(date, timestamp)] pair of a block that has a usable timestamp. *)
Definition block_date (web3 : Chain.t) (bn : option Z) : option (string * string) :=
  match Chain.getBlock web3 bn with
  | BlockAt ts =>
      if (ts =? 0)%N then None
      else option_map (fun d => (d, N_toString ts)) (toISOString (Z.of_N ts * 1000))
  | _ => None
  end.

Lemma is_digits_app a b : is_digits (a ++ b) = is_digits a && is_digits b.
Proof.
  induction a as [|c a IH]; [reflexivity|]; cbn [append is_digits].
  rewrite IH, !andb_assoc; reflexivity.
Qed.

Lemma is_digits_N_toString n : is_digits (N_toString n) = true.
Proof.
  unfold N_toString, NilZero.string_of_uint.
  assert (H : forall u, is_digits (NilEmpty.string_of_uint u) = true)
    by (induction u; cbn; assumption || reflexivity).
  destruct (N.to_uint n); try reflexivity; apply H.
Qed.

Lemma toISOString_not_digits ms s : toISOString ms = Some s -> is_digits s = false.
Proof.
  unfold toISOString.
  destruct (Z.abs ms <=? 8640000000000000); [|discriminate].
  destruct (civil_from_days (ms / 86400000)) as [[y m] d].
  intros H; injection H as <-.
  rewrite is_digits_app; cbn [append is_digits].
  rewrite andb_false_r; reflexivity.
Qed.

Lemma getBlockDate_value now web3 bn st iso :
  toISOString now = Some iso ->
  exists tr,
    getBlockDateFromTimestamp now web3 bn st =
    (Ok (match block_date web3 bn with Some p => p | None => (iso, iso) end),
     with_trace (trace st ++ tr) st) /\
    no_create tr.
Proof.
  intros Hn.
  unfold getBlockDateFromTimestamp, nowISO, block_date; unfold_monad.
  rewrite Hn.
  destruct (Chain.getBlock web3 bn) as [| |ts]; cbn -[toISOString N_toString];
  try (destruct (ts =? 0)%N; cbn -[toISOString N_toString];
       try destruct (toISOString (Z.of_N ts * 1000)); cbn -[toISOString N_toString]);
  (eexists; split;
   [ cbn; rewrite <- ?app_assoc; reflexivity
   | repeat (apply Forall_cons; [intros r; discriminate|]); apply Forall_nil ]).
Qed.

(** The row a decoded log produces, in the degraded case or not. *)
Definition dated_row (web3 : Chain.t) (bn : option Z) (iso : string)
    (row : StockManagerEvent.t) : Prop :=
  (StockManagerEvent.date row, StockManagerEvent.timestamp row) =
  match block_date web3 bn with Some p => p | None => (iso, iso) end /\
  is_digits (StockManagerEvent.timestamp row) =
  match block_date web3 bn with Some _ => true | None => false end.

Lemma block_date_digits web3 bn date ts :
  block_date web3 bn = Some (date, ts) -> is_digits ts = true.
Proof.
  unfold block_date.
  destruct (Chain.getBlock web3 bn) as [| |bts]; try discriminate.
  destruct (bts =? 0)%N; try discriminate.
  destruct (toISOString (Z.of_N bts * 1000)); try discriminate.
  intros H; injection H as _ <-; apply is_digits_N_toString.
Qed.

(** The same for an [events] row of the events-schema service. *)
Definition dated_event (web3 : Chain.t) (bn : option Z) (iso : string) (row : Event.t) : Prop :=
  (Event.date row, Event.timestamp row) =
  match block_date web3 bn with Some p => p | None => (iso, iso) end /\
  is_digits (Event.timestamp row) =
  match block_date web3 bn with Some _ => true | None => false end.

Lemma es_find_fresh h rows :
  Forall (fun r => Event.tx_hash r <> Some h) rows ->
  find (fun r => match Event.tx_hash r with Some h' => String.eqb h h' | None => false end) rows = None.
Proof.
  induction 1 as [|r rs Hr _ IH]; [reflexivity|]; cbn.
  destruct (Event.tx_hash r) as [h'|]; [|exact IH].
  destruct (String.eqb_spec h h'); [subst; congruence|exact IH].
Qed.

(** The events-schema [storeEventInDatabase] of an event with a new hash
    and a block number the [integer] column takes appends one row, which
    carries the event's date and timestamp. *)
Lemma es_storeEvent_fresh ev cn st h :
  BlockchainEventData.txHash ev = Some h ->
  Forall (fun r => Event.tx_hash r <> Some h) (events st) ->
  int4_column (parseInt_num (BlockchainEventData.blockNumber ev)) = true ->
  exists row tr,
    EventsSchema.storeEventInDatabase ev cn st =
    (Ok tt, with_trace (trace st ++ tr) (set_events (events st ++ [row])%list st)) /\
    Event.date row = BlockchainEventData.date ev /\
    Event.timestamp row = BlockchainEventData.timestamp ev.
Proof.
  intros Hh Hf Hb.
  unfold EventsSchema.storeEventInDatabase, EventsSchema.findByTxHash, EventsSchema.create,
    EventsSchema.row_accepted; unfold_monad.
  rewrite Hh; cbn -[find int4_column toLowerCase].
  rewrite (es_find_fresh h _ Hf); cbn -[int4_column toLowerCase].
  rewrite Hb; cbn -[toLowerCase].
  eexists _, _; split; [rewrite <- !app_assoc; reflexivity | split; reflexivity].
Qed.

(** C8: a failed or missing block-timestamp lookup does not abort the
    decoding or the write, in either service: a decoded Deposited or
    Redeemed log with a new hash and a block number the [integer] column
    takes appends one row; when the block has a usable timestamp [ts] the
    row has date [toISOString(ts * 1000)] and timestamp [ts] in decimal,
    and otherwise date and timestamp are both the wall-clock
    [toISOString()]. A degraded row is thus recognisable: its timestamp is
    not a decimal number. The stock-manager service writes a
    [stock_manager_events] row, the events-schema service an [events]
    row. *)
Theorem timestamp_fallback now cn c log web3 st d h iso
    (Hv : log_is_valid log = true) (Hd : RawLog.data log = Some d)
    (Hl : (96 <= List.length d)%nat) (Hh : RawLog.transactionHash log = Some h)
    (Hb : int4_column (parseInt_num (RawLog.blockNumber log)) = true)
    (Hfresh : find_by_hash (Some h) (stock_manager_events st) = None)
    (Hfresh_es : Forall (fun r => Event.tx_hash r <> Some h) (events st))
    (Hnow : toISOString now = Some iso) :
  (exists row,
     stock_manager_events (snd (processDepositedEvent now cn c log web3 st)) =
     (stock_manager_events st ++ [row])%list /\
     dated_row web3 (RawLog.blockNumber log) iso row) /\
  (exists row,
     stock_manager_events (snd (processRedeemedEvent now cn c log web3 st)) =
     (stock_manager_events st ++ [row])%list /\
     dated_row web3 (RawLog.blockNumber log) iso row) /\
  (exists row,
     events (snd (EventsSchema.processDepositedEvent now cn c log web3 st)) =
     (events st ++ [row])%list /\
     dated_event web3 (RawLog.blockNumber log) iso row) /\
  (exists row,
     events (snd (EventsSchema.processRedeemedEvent now cn c log web3 st)) =
     (events st ++ [row])%list /\
     dated_event web3 (RawLog.blockNumber log) iso row).
Proof.
  destruct log as [addr [ts|] [d'|] bn h']; cbn in Hv, Hd, Hh, Hb; try discriminate.
  injection Hd as ->; subst h'.
  destruct ts as [|t0 [|t1 [|t2 [|t3 rest]]]]; cbn in Hv; try discriminate.
  cbn [RawLog.blockNumber].
  split; [|split; [|split]].
  - unfold processDepositedEvent, topic_at, decodeLog; unfold_monad.
    rewrite Hv.
    cbn -[decode_params getBlockDateFromTimestamp storeEventInDatabase address_toString].
    rewrite decode_deposited.
    destruct (Nat.leb_spec 96 (List.length d)); [|lia].
    cbn -[getBlockDateFromTimestamp storeEventInDatabase payload_word N_toString address_toString].
    match goal with
    | |- context [getBlockDateFromTimestamp ?n ?w ?b ?s] =>
        destruct (getBlockDate_value n w b s _ Hnow) as (tr & E & _); rewrite E
    end.
    unfold dated_row; destruct (block_date web3 bn) as [[date timestamp]|] eqn:Eb;
      cbn -[storeEventInDatabase payload_word N_toString address_toString];
      rewrite storeEvent_run; cbn -[payload_word N_toString address_toString dbEventOf find_by_hash row_accepted];
      rewrite Hfresh; rewrite dbEventOf_accepted by (cbn; auto);
      cbn [BlockchainEventData.blockNumber BlockchainEventData.txHash present]; rewrite Hb;
      cbn -[payload_word N_toString address_toString dbEventOf];
      (eexists; split; [reflexivity|]).
    + split; [reflexivity | exact (block_date_digits _ _ _ _ Eb)].
    + split; [reflexivity | exact (toISOString_not_digits _ _ Hnow)].
  - unfold processRedeemedEvent, topic_at, decodeLog; unfold_monad.
    rewrite Hv.
    cbn -[decode_params getBlockDateFromTimestamp storeEventInDatabase address_toString].
    rewrite decode_redeemed.
    destruct (Nat.leb_spec 96 (List.length d)); [|lia].
    cbn -[getBlockDateFromTimestamp storeEventInDatabase payload_word N_toString address_toString].
    match goal with
    | |- context [getBlockDateFromTimestamp ?n ?w ?b ?s] =>
        destruct (getBlockDate_value n w b s _ Hnow) as (tr & E & _); rewrite E
    end.
    unfold dated_row; destruct (block_date web3 bn) as [[date timestamp]|] eqn:Eb;
      cbn -[storeEventInDatabase payload_word N_toString address_toString];
      rewrite storeEvent_run; cbn -[payload_word N_toString address_toString dbEventOf find_by_hash row_accepted];
      rewrite Hfresh; rewrite dbEventOf_accepted by (cbn; auto);
      cbn [BlockchainEventData.blockNumber BlockchainEventData.txHash present]; rewrite Hb;
      cbn -[payload_word N_toString address_toString dbEventOf];
      (eexists; split; [reflexivity|]).
    + split; [reflexivity | exact (block_date_digits _ _ _ _ Eb)].
    + split; [reflexivity | exact (toISOString_not_digits _ _ Hnow)].
  - unfold EventsSchema.processDepositedEvent, EventsSchema.processEvent,
      EventsSchema.decoded_field, topic_at, decodeLog; unfold_monad.
    cbn -[decode_params getBlockDateFromTimestamp EventsSchema.storeEventInDatabase address_toString].
    rewrite decode_deposited.
    destruct (Nat.leb_spec 96 (List.length d)); [|lia].
    cbn -[getBlockDateFromTimestamp EventsSchema.storeEventInDatabase payload_word N_toString address_toString].
    match goal with
    | |- context [getBlockDateFromTimestamp ?n ?w ?b ?s] =>
        destruct (getBlockDate_value n w b s _ Hnow) as (tr & E & _); rewrite E
    end.
    unfold dated_event; destruct (block_date web3 bn) as [[date timestamp]|] eqn:Eb;
      cbn -[EventsSchema.storeEventInDatabase payload_word N_toString address_toString];
      (match goal with
       | |- context [EventsSchema.storeEventInDatabase ?ev ?n ?s] =>
           destruct (es_storeEvent_fresh ev n s h eq_refl Hfresh_es Hb) as (row & tr' & E' & Hdt & Hts);
           rewrite E'
       end);
      cbn in Hdt, Hts; cbn -[payload_word N_toString address_toString];
      (exists row; split; [reflexivity|]); rewrite Hdt, Hts.
    + split; [reflexivity | exact (block_date_digits _ _ _ _ Eb)].
    + split; [reflexivity | exact (toISOString_not_digits _ _ Hnow)].
  - unfold EventsSchema.processRedeemedEvent, EventsSchema.processEvent,
      EventsSchema.decoded_field, topic_at, decodeLog; unfold_monad.
    cbn -[decode_params getBlockDateFromTimestamp EventsSchema.storeEventInDatabase address_toString].
    rewrite decode_redeemed.
    destruct (Nat.leb_spec 96 (List.length d)); [|lia].
    cbn -[getBlockDateFromTimestamp EventsSchema.storeEventInDatabase payload_word N_toString address_toString].
    match goal with
    | |- context [getBlockDateFromTimestamp ?n ?w ?b ?s] =>
        destruct (getBlockDate_value n w b s _ Hnow) as (tr & E & _); rewrite E
    end.
    unfold dated_event; destruct (block_date web3 bn) as [[date timestamp]|] eqn:Eb;
      cbn -[EventsSchema.storeEventInDatabase payload_word N_toString address_toString];
      (match goal with
       | |- context [EventsSchema.storeEventInDatabase ?ev ?n ?s] =>
           destruct (es_storeEvent_fresh ev n s h eq_refl Hfresh_es Hb) as (row & tr' & E' & Hdt & Hts);
           rewrite E'
       end);
      cbn in Hdt, Hts; cbn -[payload_word N_toString address_toString];
      (exists row; split; [reflexivity|]); rewrite Hdt, Hts.
    + split; [reflexivity | exact (block_date_digits _ _ _ _ Eb)].
    + split; [reflexivity | exact (toISOString_not_digits _ _ Hnow)].
Qed.

Lemma timestamp_fallback_witness :
  (exists row,
     stock_manager_events
       (snd (processDepositedEvent ex_now "bsc" ex_contract (ex_log 111) ex_chain_down st0)) =
     (stock_manager_events st0 ++ [row])%list /\
     dated_row ex_chain_down (Some 1500) "2025-10-09T08:53:20.000Z" row) /\
  (exists row,
     events (snd (EventsSchema.processDepositedEvent ex_now "bsc" ex_contract (ex_log 111) ex_chain_down st0)) =
     (events st0 ++ [row])%list /\
     dated_event ex_chain_down (Some 1500) "2025-10-09T08:53:20.000Z" row).
Proof.
  destruct (timestamp_fallback ex_now "bsc" ex_contract (ex_log 111) ex_chain_down st0 ex_data "0xtx1"
              "2025-10-09T08:53:20.000Z" eq_refl eq_refl ltac:(vm_compute; lia) eq_refl eq_refl eq_refl
              (Forall_nil _) eq_refl) as (H1 & _ & H3 & _).
  split; [exact H1 | exact H3].
Defined.

Lemma map_get_set_eq {V} k (v : V) m : map_get k (map_set k v m) = Some v.
Proof.
  induction m as [|[k' v'] m IH]; cbn; [now rewrite String.eqb_refl|].
  destruct (String.eqb k k') eqn:E; cbn; rewrite ?String.eqb_refl, ?E; [reflexivity|exact IH].
Qed.

Lemma map_get_set_keep {V} n k (v : V) m :
  map_get n m <> None -> map_get n (map_set k v m) <> None.
Proof.
  induction m as [|[k' v'] m IH]; cbn; [congruence|].
  destruct (String.eqb_spec k k') as [->|Hne]; cbn.
  - destruct (String.eqb n k'); congruence.
  - destruct (String.eqb n k'); [congruence|exact IH].
Qed.

Lemma key_add_keep k k' ks : In k ks -> In k (key_add k' ks).
Proof. unfold key_add; destruct (existsb _ _); [auto|]; intros H; apply in_or_app; auto. Qed.

Lemma key_add_in k ks : In k (key_add k ks).
Proof.
  unfold key_add; destruct (existsb (String.eqb k) ks) eqn:E.
  - apply existsb_exists in E as (x & Hx & Hk); apply String.eqb_eq in Hk; subst; exact Hx.
  - apply in_or_app; right; left; reflexivity.
Qed.

Lemma bind_ok {A B} (m : M A) (k : A -> M B) st a st' :
  m st = (Ok a, st') -> bind m k st = k a st'.
Proof. intros E; unfold bind; rewrite E; reflexivity. Qed.

Section Connect.

Variable endpoint : string -> option Chain.t.

(** What the connection pass establishes for the configuration [cfg]:
    a connection under its name and, for the stock-manager service, its
    [connect] handler. *)
Definition url_ok (cfg : BlockchainConfig.t) : Prop :=
  trim (BlockchainConfig.wssUrl cfg) <> "" /\ endpoint (BlockchainConfig.wssUrl cfg) <> None.

Definition established (cfg : BlockchainConfig.t) (s : St) : Prop :=
  map_get (BlockchainConfig.name cfg) (web3Connections s) <> None /\
  In (BlockchainConfig.name cfg, BlockchainConfig.contracts cfg) (connectHandlers s).

Definition grows (s s' : St) : Prop :=
  subscriptions s' = subscriptions s /\
  (forall n, map_get n (web3Connections s) <> None -> map_get n (web3Connections s') <> None) /\
  (forall x, In x (connectHandlers s) -> In x (connectHandlers s')).

Lemma grows_trans s1 s2 s3 : grows s1 s2 -> grows s2 s3 -> grows s1 s3.
Proof.
  intros (A1 & B1 & C1) (A2 & B2 & C2); split; [congruence|]; split; auto.
Qed.

Lemma established_grows cfg s s' : established cfg s -> grows s s' -> established cfg s'.
Proof. intros [H1 H2] (_ & B & C); split; auto. Qed.

Lemma connect_try_step cfg st :
  let r := try_catch (connectToChain endpoint cfg) (fun _ => logger LError "Failed to connect") st in
  fst r = Ok tt /\ grows st (snd r) /\ (url_ok cfg -> established cfg (snd r)).
Proof.
  unfold connectToChain, url_ok, established, grows; unfold_monad; cbv zeta.
  destruct (String.eqb_spec (trim (BlockchainConfig.wssUrl cfg)) "") as [He|He]; cbn.
  - split; [reflexivity|]. split; [repeat split; auto|]. intros [H _]; contradiction.
  - destruct (endpoint (BlockchainConfig.wssUrl cfg)) as [w|]; cbn.
    + split; [reflexivity|]. split.
      * split; [reflexivity|]. split; [intros n; apply map_get_set_keep|].
        intros x Hx; apply in_or_app; left; exact Hx.
      * intros _; split; [rewrite map_get_set_eq; discriminate|].
        apply in_or_app; right; left; reflexivity.
    + split; [reflexivity|]. split; [repeat split; auto|]. intros [_ H]; contradiction.
Qed.

Lemma connect_all configs st :
  let r := forM configs (fun config =>
             try_catch (connectToChain endpoint config) (fun _ => logger LError "Failed to connect")) st in
  fst r = Ok tt /\ grows st (snd r) /\
  (forall cfg, In cfg configs -> url_ok cfg -> established cfg (snd r)).
Proof.
  revert st; induction configs as [|cfg configs IH]; intros st; cbn zeta.
  - split; [reflexivity|]. split; [repeat split; auto|]. intros cfg [].
  - cbn [forM]; unfold bind.
    destruct (connect_try_step cfg st) as (Hok & Hg & He).
    destruct (try_catch _ _ st) as [r1 s1]; cbn in Hok, Hg, He; subst r1; cbv beta iota.
    destruct (IH s1) as (Hok2 & Hg2 & He2).
    split; [exact Hok2|]. split; [exact (grows_trans _ _ _ Hg Hg2)|].
    intros c [<-|Hin] Hu; [exact (established_grows _ _ _ (He Hu) Hg2) | exact (He2 c Hin Hu)].
Qed.

(** The events-schema service: the connection, and the subscription when
    the node accepts it. *)
Definition subscribed (cfg : BlockchainConfig.t) (s : St) : Prop :=
  map_get (BlockchainConfig.name cfg) (web3Connections s) <> None /\
  In (BlockchainConfig.name cfg ++ "-logs") (subscriptions s).

Definition es_url_ok (cfg : BlockchainConfig.t) : Prop :=
  trim (BlockchainConfig.wssUrl cfg) <> "" /\
  exists w, endpoint (BlockchainConfig.wssUrl cfg) = Some w /\ Chain.subscribeOk w = true.

Definition es_grows (s s' : St) : Prop :=
  (forall n, map_get n (web3Connections s) <> None -> map_get n (web3Connections s') <> None) /\
  (forall k, In k (subscriptions s) -> In k (subscriptions s')).

Lemma es_connect_try_step cfg st :
  let r := try_catch (EventsSchema.connectToChain endpoint cfg)
             (fun _ => logger LError "Failed to connect") st in
  fst r = Ok tt /\ es_grows st (snd r) /\ (es_url_ok cfg -> subscribed cfg (snd r)).
Proof.
  unfold EventsSchema.connectToChain, subscribeToEvents, getConnection, es_url_ok, subscribed,
    es_grows; unfold_monad; cbv zeta.
  destruct (String.eqb_spec (trim (BlockchainConfig.wssUrl cfg)) "") as [He|He]; cbn.
  - split; [reflexivity|]. split; [split; auto|]. intros [H _]; contradiction.
  - destruct (endpoint (BlockchainConfig.wssUrl cfg)) as [w|] eqn:Ew; cbn.
    + rewrite map_get_set_eq.
      destruct (Chain.subscribeOk w) eqn:Eok; cbn.
      * split; [reflexivity|]. split.
        -- split; [intros n; apply map_get_set_keep | intros k; apply key_add_keep].
        -- intros _; split; [rewrite map_get_set_eq; discriminate | apply key_add_in].
      * split; [reflexivity|]. split.
        -- split; [intros n; apply map_get_set_keep | auto].
        -- intros [_ (w' & Hw & Hok)]; injection Hw as <-; congruence.
    + split; [reflexivity|]. split; [split; auto|]. intros [_ (w & Hw & _)]; discriminate.
Qed.

Lemma es_connect_all configs st :
  let r := forM configs (fun config =>
             try_catch (EventsSchema.connectToChain endpoint config)
               (fun _ => logger LError "Failed to connect")) st in
  fst r = Ok tt /\ es_grows st (snd r) /\
  (forall cfg, In cfg configs -> es_url_ok cfg -> subscribed cfg (snd r)).
Proof.
  revert st; induction configs as [|cfg configs IH]; intros st; cbn zeta.
  - split; [reflexivity|]. split; [split; auto|]. intros cfg [].
  - cbn [forM]; unfold bind.
    destruct (es_connect_try_step cfg st) as (Hok & Hg & He).
    destruct (try_catch _ _ st) as [r1 s1]; cbn in Hok, Hg, He; subst r1; cbv beta iota.
    destruct (IH s1) as (Hok2 & (Hg2a & Hg2b) & He2).
    destruct Hg as [Hga Hgb].
    split; [exact Hok2|]. split; [split; auto|].
    intros c [<-|Hin] Hu; [|exact (He2 c Hin Hu)].
    destruct (He Hu) as [H1 H2]; split; auto.
Qed.

End Connect.

(** C9: the connection pass catches a failure per network: every network
    whose URL is non-blank and reachable is connected afterwards, whatever
    the other networks do. In the stock-manager service the pass itself
    subscribes to nothing (the subscription is left to the provider's
    [connect] listener); in the events-schema service every such network
    whose node accepts the subscription is subscribed. *)
Theorem partial_failure_isolation endpoint configs st :
  let st1 := snd (connectToMultipleChains endpoint configs st) in
  let st2 := snd (EventsSchema.connectToMultipleChains endpoint configs st) in
  fst (connectToMultipleChains endpoint configs st) = Ok tt /\
  connected st1 = true /\
  subscriptions st1 = subscriptions st /\
  (forall cfg, In cfg configs -> url_ok endpoint cfg -> established cfg st1) /\
  fst (EventsSchema.connectToMultipleChains endpoint configs st) = Ok tt /\
  connected st2 = true /\
  (forall cfg, In cfg configs -> es_url_ok endpoint cfg -> subscribed cfg st2).
Proof.
  cbv zeta.
  unfold connectToMultipleChains, startHourlyBackfill, EventsSchema.connectToMultipleChains.
  pose (L := with_trace (trace st ++ [ELog LLog "Connecting to blockchains"]) st).
  do 2 rewrite (bind_ok (logger LLog "Connecting to blockchains") _ st tt L eq_refl).
  erewrite (bind_ok (modify _)) by reflexivity.
  unfold bind.
  match goal with
  | |- context [forM configs ?f ?s] =>
      pose proof (connect_all endpoint configs s) as H1;
      pose proof (es_connect_all endpoint configs L) as H2;
      cbv zeta in H1, H2;
      set (run := forM configs f s) in *
  end.
  set (run2 := forM configs _ L) in *.
  clearbody run run2.
  destruct run as [r s1], run2 as [r2 s2]; cbn [fst snd] in H1, H2.
  destruct H1 as (-> & (Hs & _ & _) & He), H2 as (-> & _ & He2).
  cbn.
  split; [reflexivity|]. split; [reflexivity|]. split; [exact Hs|].
  split; [intros cfg Hin Hu; destruct (He cfg Hin Hu); split; assumption|].
  split; [reflexivity|]. split; [reflexivity|].
  intros cfg Hin Hu; destruct (He2 cfg Hin Hu); split; assumption.
Qed.

(** After the pass over [ex_configs3], the stock-manager service is
    connected to [a] and [c] with no subscription; the events-schema
    service is subscribed on [a] and [c]. *)
Lemma connection_pass_example :
  let st1 := snd (connectToMultipleChains ex_endpoint ex_configs3 st_empty) in
  let st2 := snd (EventsSchema.connectToMultipleChains ex_endpoint ex_configs3 st_empty) in
  map fst (web3Connections st1) = ["a"; "c"] /\ subscriptions st1 = [] /\
  map fst (connectHandlers st1) = ["a"; "c"] /\
  subscriptions st2 = ["a-logs"; "c-logs"].
Proof. vm_compute; repeat split. Qed.

(** ** Invariants, error paths and lifecycle *)

Section Stable.
Variable R : St -> St -> Prop.
Context {R_pre : PreOrder R}.

Definition stable {A} (m : M A) : Prop := forall s, R s (snd (m s)).

Lemma stable_ret {A} (a : A) : stable (ret a).
Proof. intro s; reflexivity. Qed.

Lemma stable_throw {A} e : stable (@throw A e).
Proof. intro s; reflexivity. Qed.

Lemma stable_get : stable get.
Proof. intro s; reflexivity. Qed.

Lemma stable_bind {A B} (m : M A) (k : A -> M B) :
  stable m -> (forall a, stable (k a)) -> stable (bind m k).
Proof.
  intros Hm Hk s; unfold bind; specialize (Hm s).
  destruct (m s) as [[a|e] s'] eqn:E; cbn in *; [etransitivity; [exact Hm|apply Hk]|exact Hm].
Qed.

Lemma stable_try_catch {A} (m : M A) h :
  stable m -> (forall e, stable (h e)) -> stable (try_catch m h).
Proof.
  intros Hm Hh s; unfold try_catch; specialize (Hm s).
  destruct (m s) as [[a|e] s'] eqn:E; cbn in *; [exact Hm|etransitivity; [exact Hm|apply Hh]].
Qed.

Lemma stable_forM {A} (xs : list A) f :
  (forall x, stable (f x)) -> stable (forM xs f).
Proof.
  intros Hf; induction xs as [|x r IH]; cbn; [apply stable_ret|].
  apply stable_bind; [apply Hf|intros; exact IH].
Qed.

End Stable.

Lemma only_logs_refl s : only_logs s s.
Proof. exists []; split; [destruct s; cbn; rewrite app_nil_r; reflexivity|constructor]. Qed.

Lemma only_logs_trans s1 s2 s3 : only_logs s1 s2 -> only_logs s2 s3 -> only_logs s1 s3.
Proof.
  intros (l1 & -> & H1) (l2 & -> & H2); exists (l1 ++ l2)%list; split.
  - cbn; rewrite app_assoc; reflexivity.
  - apply Forall_app; auto.
Qed.

Lemma store_grows_refl s : store_grows s s.
Proof. repeat split; auto; exists []; rewrite app_nil_r; reflexivity. Qed.

Lemma store_grows_trans s1 s2 s3 : store_grows s1 s2 -> store_grows s2 s3 -> store_grows s1 s3.
Proof.
  intros ((l1 & E1) & (m1 & F1) & G1 & H1) ((l2 & E2) & (m2 & F2) & G2 & H2).
  split; [exists (l1 ++ l2)%list; rewrite E2, E1, app_assoc; reflexivity|].
  split; [exists (m1 ++ m2)%list; rewrite F2, F1, app_assoc; reflexivity|].
  split; auto.
Qed.

Lemma store_grows_keep s s' :
  stock_manager_events s' = stock_manager_events s -> events s' = events s -> store_grows s s'.
Proof. intros E F; unfold store_grows; rewrite E, F; apply store_grows_refl. Qed.

Lemma sg_modify f :
  (forall s, stock_manager_events (f s) = stock_manager_events s /\ events (f s) = events s) ->
  stable store_grows (modify f).
Proof. intros H s; destruct (H s); apply store_grows_keep; auto. Qed.

Lemma sg_emit e : stable store_grows (emit e).
Proof. apply sg_modify; intros; split; reflexivity. Qed.

Lemma sg_logger l m : stable store_grows (logger l m).
Proof. apply sg_emit. Qed.

Lemma ol_logger l m : stable only_logs (logger l m).
Proof. intro s; exists [ELog l m]; split; [reflexivity|repeat constructor]. Qed.

Lemma smh_app a b : smh_hashes (a ++ b)%list = (smh_hashes a ++ smh_hashes b)%list.
Proof. apply flat_map_app. Qed.

Lemma ev_hashes_app a b : ev_hashes (a ++ b)%list = (ev_hashes a ++ ev_hashes b)%list.
Proof. apply flat_map_app. Qed.

Lemma find_none_not_in {T} (f : T -> bool) rows h (hs : T -> list string) :
  (forall r, In h (hs r) -> f r = true) ->
  find f rows = None -> ~ In h (flat_map hs rows).
Proof.
  intros Hf; induction rows as [|r rows IH]; cbn; [auto|].
  destruct (f r) eqn:E; [discriminate|].
  intros Hn Hin; apply in_app_or in Hin as [Hin|Hin]; [|exact (IH Hn Hin)].
  rewrite (Hf r Hin) in E; discriminate.
Qed.

Lemma nodup_snoc l (x : list string) :
  NoDup l -> (forall h, In h x -> ~ In h l) -> NoDup x -> NoDup (l ++ x)%list.
Proof. intros Hl Hx Hn; apply NoDup_app; auto; intros a Ha Hb; exact (Hx a Hb Ha). Qed.

Lemma sg_storeEvent ev cn : stable store_grows (storeEventInDatabase ev cn).
Proof.
  intro s; rewrite storeEvent_run.
  destruct (find_by_hash _ _) eqn:E; [apply store_grows_keep; reflexivity|].
  destruct (row_accepted (dbEventOf ev)); [|apply store_grows_keep; reflexivity].
  unfold with_trace, set_stock_manager_events, snd; cbn [stock_manager_events events].
  split; [eexists; reflexivity|]; split; [exists []; rewrite app_nil_r; reflexivity|].
  split; [|auto].
  intros Hn; simpl stock_manager_events; rewrite smh_app; apply nodup_snoc; auto.
  - unfold smh_hashes at 1; cbn; rewrite dbEventOf_hash, app_nil_r.
    unfold find_by_hash in E; destruct (BlockchainEventData.txHash ev) as [h|]; [|intros ? []].
    intros h' [<-|[]].
    apply (find_none_not_in (hash_is h) _ h); [|exact E].
    intros r; destruct (StockManagerEvent.transaction_hash r) as [h''|] eqn:Er; cbn; [|intros []].
    intros [<-|[]]; unfold hash_is; rewrite Er; apply String.eqb_refl.
  - cbn; rewrite dbEventOf_hash; destruct (BlockchainEventData.txHash ev); repeat constructor; intros [].
Qed.

#[export] Instance only_logs_pre : PreOrder only_logs.
Proof. split; [exact only_logs_refl|exact only_logs_trans]. Qed.

#[export] Instance store_grows_pre : PreOrder store_grows.
Proof. split; [exact store_grows_refl|exact store_grows_trans]. Qed.

Lemma sg_es_storeEvent ev cn : stable store_grows (EventsSchema.storeEventInDatabase ev cn).
Proof.
  intro s; unfold EventsSchema.storeEventInDatabase, EventsSchema.findByTxHash, EventsSchema.create.
  unfold_monad; cbn -[find toLowerCase EventsSchema.row_accepted].
  set (row := Event.mk _ _ _ _ _ _ _ _ _ _ _ _ _ _).
  destruct (match BlockchainEventData.txHash ev with Some h => _ | None => _ end) eqn:E;
  cbn -[find toLowerCase EventsSchema.row_accepted]; [apply store_grows_keep; reflexivity|].
  destruct (EventsSchema.row_accepted row); cbn -[find toLowerCase];
    [|apply store_grows_keep; reflexivity].
  split; [exists []; rewrite app_nil_r; reflexivity|]; split; [eexists; reflexivity|].
  split; [auto|].
  intros Hn; simpl events; rewrite ev_hashes_app; apply nodup_snoc; auto.
  - unfold ev_hashes at 1; cbn; rewrite app_nil_r.
    destruct (BlockchainEventData.txHash ev) as [h|]; [|intros ? []].
    intros h' [<-|[]].
    refine (find_none_not_in _ _ h _ _ E).
    intros r; cbv beta; match goal with |- context [match ?x with _ => _ end] => destruct x as [h2|] eqn:Er end; cbn; [|intros []].
    intros [<-|[]]; apply String.eqb_refl.
  - cbn; destruct (BlockchainEventData.txHash ev); repeat constructor; intros [].
Qed.

Ltac stab_split base :=
  repeat first
    [ solve [base]
    | apply stable_bind; [exact _| |intro]
    | apply stable_try_catch; [exact _| |intro]
    | apply stable_forM; [exact _|intro]
    | apply stable_ret; exact _
    | apply stable_throw; exact _
    | apply stable_get; exact _
    | progress cbv beta zeta
    | match goal with
      | |- stable _ ?t =>
          match t with context [match ?x with _ => _ end] => destruct x end
      end ].

Create HintDb sg.
#[export] Hint Resolve sg_emit sg_logger sg_storeEvent sg_es_storeEvent : sg.

Ltac sg_base :=
  first [ solve [eauto with sg] | apply sg_modify; intro; split; reflexivity ].

Lemma sg_getBlockDate now web3 bn : stable store_grows (getBlockDateFromTimestamp now web3 bn).
Proof. unfold getBlockDateFromTimestamp, nowISO; stab_split sg_base. Qed.
#[export] Hint Resolve sg_getBlockDate : sg.

Lemma sg_processDeposited now cn c log web3 :
  stable store_grows (processDepositedEvent now cn c log web3).
Proof. unfold processDepositedEvent, topic_at, decodeLog; stab_split sg_base. Qed.
#[export] Hint Resolve sg_processDeposited : sg.

Lemma sg_processRedeemed now cn c log web3 :
  stable store_grows (processRedeemedEvent now cn c log web3).
Proof. unfold processRedeemedEvent, topic_at, decodeLog; stab_split sg_base. Qed.
#[export] Hint Resolve sg_processRedeemed : sg.

Lemma sg_processLog sha3 now cn contracts log :
  stable store_grows (processLog sha3 now cn contracts log).
Proof. unfold processLog, getConnection, topic_at, web3_sha3; stab_split sg_base. Qed.
#[export] Hint Resolve sg_processLog : sg.

Lemma sg_onLogData sha3 now cn contracts log :
  stable store_grows (onLogData sha3 now cn contracts log).
Proof. unfold onLogData; stab_split sg_base. Qed.

Lemma sg_fetchAndStore sha3 now web3 cn c f t :
  stable store_grows (fetchAndStoreContractEvents sha3 now web3 cn c f t).
Proof. unfold fetchAndStoreContractEvents, web3_sha3, getPastLogs; stab_split sg_base. Qed.
#[export] Hint Resolve sg_fetchAndStore : sg.

Lemma sg_storePreviousEventsForChain sha3 now config f :
  stable store_grows (storePreviousEventsForChain sha3 now config f).
Proof. unfold storePreviousEventsForChain, getConnection; stab_split sg_base. Qed.
#[export] Hint Resolve sg_storePreviousEventsForChain : sg.

Lemma sg_storePreviousEvents sha3 now configs f :
  stable store_grows (storePreviousEvents sha3 now configs f).
Proof. unfold storePreviousEvents; stab_split sg_base. Qed.
#[export] Hint Resolve sg_storePreviousEvents : sg.

Lemma sg_processDedup now cn c log web3 k :
  stable store_grows (processEventWithDeduplication now cn c log web3 k).
Proof. unfold processEventWithDeduplication, findByTxHash; stab_split sg_base. Qed.
#[export] Hint Resolve sg_processDedup : sg.

Lemma sg_fetchDedup sha3 now web3 cn c f t :
  stable store_grows (fetchAndStoreContractEventsWithDeduplication sha3 now web3 cn c f t).
Proof.
  unfold fetchAndStoreContractEventsWithDeduplication, web3_sha3, getPastLogs; stab_split sg_base.
Qed.
#[export] Hint Resolve sg_fetchDedup : sg.

Lemma sg_backfillLastBlocks sha3 now config n :
  stable store_grows (backfillLastBlocks sha3 now config n).
Proof. unfold backfillLastBlocks, getConnection; stab_split sg_base. Qed.
#[export] Hint Resolve sg_backfillLastBlocks : sg.

Lemma sg_performHourlyBackfill sha3 now :
  stable store_grows (performHourlyBackfill sha3 now).
Proof. unfold performHourlyBackfill; stab_split sg_base. Qed.

Lemma sg_triggerManualBackfill sha3 now n :
  stable store_grows (triggerManualBackfill sha3 now n).
Proof. unfold triggerManualBackfill; stab_split sg_base. Qed.
#[export] Hint Resolve sg_triggerManualBackfill : sg.

Lemma sg_triggerBackfill sha3 now bc :
  stable store_grows (triggerBackfill sha3 now bc).
Proof. unfold triggerBackfill; stab_split sg_base. Qed.

Lemma sg_controller_storePreviousEvents sha3 now cfgs cid bf q :
  stable store_grows (Web3Controller_storePreviousEvents sha3 now cfgs cid bf q).
Proof. unfold Web3Controller_storePreviousEvents; stab_split sg_base. Qed.

Lemma sg_subscribeToEvents cn contracts : stable store_grows (subscribeToEvents cn contracts).
Proof. unfold subscribeToEvents, getConnection; stab_split sg_base. Qed.
#[export] Hint Resolve sg_subscribeToEvents : sg.

Lemma sg_onProviderConnect cn : stable store_grows (onProviderConnect cn).
Proof. unfold onProviderConnect; stab_split sg_base. Qed.

Lemma sg_connectToMultipleChains endpoint configs :
  stable store_grows (connectToMultipleChains endpoint configs).
Proof. unfold connectToMultipleChains, connectToChain, startHourlyBackfill; stab_split sg_base. Qed.

Lemma sg_disconnect u d : stable store_grows (disconnect u d).
Proof. unfold disconnect; stab_split sg_base. Qed.
#[export] Hint Resolve sg_disconnect : sg.

Lemma sg_onModuleDestroy u d : stable store_grows (onModuleDestroy u d).
Proof. unfold onModuleDestroy, stopHourlyBackfill; stab_split sg_base. Qed.

Lemma sg_es_processEvent now name ins cn c log web3 :
  stable store_grows (EventsSchema.processEvent now name ins cn c log web3).
Proof.
  unfold EventsSchema.processEvent, EventsSchema.decoded_field, topic_at, decodeLog; stab_split sg_base.
Qed.
#[export] Hint Resolve sg_es_processEvent : sg.

Lemma sg_es_processLog sha3 now cn contracts log :
  stable store_grows (EventsSchema.processLog sha3 now cn contracts log).
Proof.
  unfold EventsSchema.processLog, EventsSchema.processDepositedEvent,
    EventsSchema.processRedeemedEvent, getConnection, topic_at, web3_sha3; stab_split sg_base.
Qed.

Lemma sg_es_storePreviousEvents sha3 now configs f :
  stable store_grows (EventsSchema.storePreviousEvents sha3 now configs f).
Proof.
  unfold EventsSchema.storePreviousEvents, EventsSchema.storePreviousEventsForChain,
    EventsSchema.fetchAndStoreContractEvents, EventsSchema.processDepositedEvent,
    EventsSchema.processRedeemedEvent, getConnection, web3_sha3, getPastLogs; stab_split sg_base.
Qed.

Lemma sg_es_connectToMultipleChains endpoint configs :
  stable store_grows (EventsSchema.connectToMultipleChains endpoint configs).
Proof.
  unfold EventsSchema.connectToMultipleChains, EventsSchema.connectToChain; stab_split sg_base.
Qed.

Lemma sg_es_onModuleDestroy u d : stable store_grows (EventsSchema.onModuleDestroy u d).
Proof. unfold EventsSchema.onModuleDestroy; stab_split sg_base. Qed.

Lemma nothrow_ret {A} (a : A) : nothrow (ret a).
Proof. intro s; exists a; reflexivity. Qed.

Lemma nothrow_get : nothrow get.
Proof. intro s; exists s; reflexivity. Qed.

Lemma nothrow_modify f : nothrow (modify f).
Proof. intro s; exists tt; reflexivity. Qed.

Lemma nothrow_emit e : nothrow (emit e).
Proof. apply nothrow_modify. Qed.

Lemma nothrow_logger l m : nothrow (logger l m).
Proof. apply nothrow_modify. Qed.

Lemma nothrow_bind {A B} (m : M A) (k : A -> M B) :
  nothrow m -> (forall a, nothrow (k a)) -> nothrow (bind m k).
Proof.
  intros Hm Hk s; unfold bind; destruct (Hm s) as [a Ha].
  destruct (m s) as [[a'|e] s'] eqn:E; cbn in Ha; [apply Hk|discriminate].
Qed.

Lemma nothrow_try_catch_h {A} (m : M A) h : (forall e, nothrow (h e)) -> nothrow (try_catch m h).
Proof.
  intros Hh s; unfold try_catch.
  destruct (m s) as [[a|e] s'] eqn:E; [exists a; reflexivity|apply Hh].
Qed.

Lemma nothrow_try_catch_m {A} (m : M A) h : nothrow m -> nothrow (try_catch m h).
Proof.
  intros Hm s; unfold try_catch; destruct (Hm s) as [a Ha].
  destruct (m s) as [[a'|e] s'] eqn:E; cbn in Ha; [exists a'; reflexivity|discriminate].
Qed.

Lemma nothrow_forM {A} (xs : list A) f : (forall x, nothrow (f x)) -> nothrow (forM xs f).
Proof.
  intros Hf; induction xs as [|x r IH]; cbn; [apply nothrow_ret|].
  apply nothrow_bind; [apply Hf|intros; exact IH].
Qed.

Create HintDb nt.
#[export] Hint Resolve nothrow_ret nothrow_get nothrow_modify nothrow_emit nothrow_logger : nt.

Ltac nt_split :=
  repeat first
    [ solve [eauto with nt]
    | apply nothrow_bind; [|intro]
    | apply nothrow_try_catch_h; intro
    | apply nothrow_forM; intro
    | progress cbv beta zeta
    | match goal with
      | |- nothrow ?t =>
          match t with context [match ?x with _ => _ end] => destruct x end
      end ].

Lemma nt_processLog sha3 now cn contracts log : nothrow (processLog sha3 now cn contracts log).
Proof. unfold processLog, getConnection; nt_split. Qed.

Lemma nt_es_processLog sha3 now cn contracts log :
  nothrow (EventsSchema.processLog sha3 now cn contracts log).
Proof. unfold EventsSchema.processLog, getConnection; nt_split. Qed.

Lemma nt_storePreviousEvents sha3 now configs f : nothrow (storePreviousEvents sha3 now configs f).
Proof. unfold storePreviousEvents; nt_split. Qed.

Lemma nt_es_storePreviousEvents sha3 now configs f :
  nothrow (EventsSchema.storePreviousEvents sha3 now configs f).
Proof. unfold EventsSchema.storePreviousEvents; nt_split. Qed.

Lemma nt_backfillLastBlocks sha3 now config n : nothrow (backfillLastBlocks sha3 now config n).
Proof. unfold backfillLastBlocks, getConnection; nt_split. Qed.
#[export] Hint Resolve nt_backfillLastBlocks : nt.

Lemma nt_performHourlyBackfill sha3 now : nothrow (performHourlyBackfill sha3 now).
Proof. unfold performHourlyBackfill; nt_split. Qed.

Lemma nt_triggerManualBackfill sha3 now n : nothrow (triggerManualBackfill sha3 now n).
Proof.
  unfold triggerManualBackfill; apply nothrow_bind; [apply nothrow_logger|intros _].
  apply nothrow_try_catch_m; nt_split.
Qed.

Lemma nt_connectToMultipleChains endpoint configs :
  nothrow (connectToMultipleChains endpoint configs).
Proof. unfold connectToMultipleChains, startHourlyBackfill; nt_split. Qed.

Lemma nt_es_connectToMultipleChains endpoint configs :
  nothrow (EventsSchema.connectToMultipleChains endpoint configs).
Proof. unfold EventsSchema.connectToMultipleChains; nt_split. Qed.

Lemma nt_onProviderConnect cn : nothrow (onProviderConnect cn).
Proof. unfold onProviderConnect, subscribeToEvents, getConnection; nt_split. Qed.

Lemma nt_disconnect u d : nothrow (disconnect u d).
Proof. unfold disconnect; nt_split. Qed.
#[export] Hint Resolve nt_disconnect : nt.

Lemma nt_onModuleDestroy u d : nothrow (onModuleDestroy u d).
Proof. unfold onModuleDestroy, stopHourlyBackfill; nt_split. Qed.

Lemma nt_es_onModuleDestroy u d : nothrow (EventsSchema.onModuleDestroy u d).
Proof. unfold EventsSchema.onModuleDestroy; nt_split. Qed.

Lemma onLogData_processLog sha3 now cn contracts log st :
  onLogData sha3 now cn contracts log st = processLog sha3 now cn contracts log st.
Proof.
  unfold onLogData, try_catch.
  destruct (nt_processLog sha3 now cn contracts log st) as [a Ha].
  destruct (processLog sha3 now cn contracts log st) as [[a'|e] s']; [reflexivity|discriminate].
Qed.

Lemma triggerBackfill_result sha3 now bc st :
  fst (triggerBackfill sha3 now bc st) =
  let n := requested_blockCount bc in
  if js_le n (JNum 0) || js_gt n (JNum 50000)
  then Throw (BadRequestException "Block count must be between 1 and 50000")
  else Ok (BackfillOk n).
Proof.
  unfold triggerBackfill, requested_blockCount, try_catch, bind, logger, emit, modify, throw, ret.
  cbv zeta; cbn -[triggerManualBackfill parseInt].
  set (n := match bc with Some s => _ | None => _ end).
  destruct (js_le n (JNum 0) || js_gt n (JNum 50000)); [reflexivity|].
  match goal with |- context [triggerManualBackfill sha3 now n ?s] =>
    destruct (nt_triggerManualBackfill sha3 now n s) as [a Ha];
    destruct (triggerManualBackfill sha3 now n s) as [[a'|e] s'] end;
  [reflexivity|discriminate].
Qed.

Lemma controller_storePreviousEvents_result sha3 now cfgs cid body q st :
  fst (Web3Controller_storePreviousEvents sha3 now cfgs cid body q st) =
  match cid with
  | None => Throw (BadRequestException "Chain ID is required")
  | Some c =>
      if c =? 0 then Throw (BadRequestException "Chain ID is required")
      else
        match find (fun config => BlockchainConfig.chainId config =? c) cfgs with
        | None => Throw (BadRequestException "Blockchain configuration not found")
        | Some cfg =>
            if String.eqb (trim (BlockchainConfig.wssUrl cfg)) ""
            then Throw (BadRequestException "WebSocket URL is not configured")
            else Ok (StoreOk c (requested_fromBlock q body) (BlockchainConfig.contracts cfg))
        end
  end.
Proof.
  unfold Web3Controller_storePreviousEvents, requested_fromBlock,
    try_catch, bind, logger, emit, modify, throw, ret.
  cbv zeta; cbn -[storePreviousEvents parseInt trim find].
  destruct cid as [c|]; [|reflexivity].
  destruct (c =? 0); [reflexivity|].
  destruct (find _ cfgs) as [cfg|]; [|reflexivity].
  destruct (String.eqb _ ""); [reflexivity|].
  match goal with |- context [storePreviousEvents sha3 now ?l ?f ?s] =>
    destruct (nt_storePreviousEvents sha3 now l f s) as [a Ha];
    destruct (storePreviousEvents sha3 now l f s) as [[a'|e] s'] end;
  [reflexivity|discriminate].
Qed.

Lemma controller_storePreviousEvents_rejects sha3 now cfgs cid body q st e :
  fst (Web3Controller_storePreviousEvents sha3 now cfgs cid body q st) = Throw e ->
  only_logs st (snd (Web3Controller_storePreviousEvents sha3 now cfgs cid body q st)).
Proof.
  rewrite controller_storePreviousEvents_result.
  unfold Web3Controller_storePreviousEvents, try_catch, bind, logger, emit, modify, throw, ret.
  cbv zeta; cbn -[storePreviousEvents parseInt trim find].
  destruct cid as [c|];
  [destruct (c =? 0);
   [|destruct (find _ cfgs) as [cfg|];
     [destruct (String.eqb _ ""); [|discriminate]|]]|];
  intros _; eexists; (split; [cbn; rewrite <- app_assoc; reflexivity|repeat constructor]).
Qed.

Lemma storePreviousEvents_nan sha3 now configs :
  storePreviousEvents sha3 now configs (Some JNaN) = storePreviousEvents sha3 now configs None.
Proof. reflexivity. Qed.

Lemma es_storePreviousEvents_nan sha3 now configs :
  EventsSchema.storePreviousEvents sha3 now configs (Some JNaN) =
  EventsSchema.storePreviousEvents sha3 now configs None.
Proof. reflexivity. Qed.

Create HintDb ol.
#[export] Hint Resolve ol_logger : ol.
Ltac ol_base := solve [eauto with ol].

Lemma ol_fetchDedup_nan sha3 now web3 cn c t :
  stable only_logs (fetchAndStoreContractEventsWithDeduplication sha3 now web3 cn c JNaN t).
Proof. unfold fetchAndStoreContractEventsWithDeduplication; cbn [windows forM]; stab_split ol_base. Qed.
#[export] Hint Resolve ol_fetchDedup_nan : ol.

Lemma ol_backfill_nan sha3 now config : stable only_logs (backfillLastBlocks sha3 now config JNaN).
Proof. unfold backfillLastBlocks, getConnection; cbn [js_max js_sub]; stab_split ol_base. Qed.
#[export] Hint Resolve ol_backfill_nan : ol.

Lemma ol_triggerManualBackfill_nan sha3 now : stable only_logs (triggerManualBackfill sha3 now JNaN).
Proof. unfold triggerManualBackfill; stab_split ol_base. Qed.
#[export] Hint Resolve ol_triggerManualBackfill_nan : ol.

(** X6: a non-numeric [blockCount] passes the bounds check: the handler
    reports success with [NaN] and the backfill only logs. *)
Theorem nan_blockCount_accepted sha3 now q st (Hq : q <> "") (Hp : parseInt q = JNaN) :
  fst (triggerBackfill sha3 now (Some q) st) = Ok (BackfillOk JNaN) /\
  only_logs st (snd (triggerBackfill sha3 now (Some q) st)).
Proof.
  apply String.eqb_neq in Hq.
  split.
  - rewrite triggerBackfill_result; unfold requested_blockCount; rewrite Hq, Hp; reflexivity.
  - revert st; change (stable only_logs (triggerBackfill sha3 now (Some q))).
    unfold triggerBackfill; cbv beta iota zeta; rewrite Hq, Hp.
    cbv beta iota zeta delta [js_le js_gt orb]; stab_split ol_base.
Qed.

Lemma nan_blockCount_accepted_witness :
  fst (triggerBackfill ex_sha3 ex_now (Some "abc") st0) = Ok (BackfillOk JNaN) /\
  only_logs st0 (snd (triggerBackfill ex_sha3 ex_now (Some "abc") st0)).
Proof. apply nan_blockCount_accepted; [discriminate|vm_compute; reflexivity]. Defined.

(** X8: a non-numeric [fromBlock] query parameter overrides the body's
    [fromBlock] but is then treated as absent: the run is the one without
    either, only the response reports [NaN]. *)
Theorem nan_fromBlock_query_ignored sha3 now cfgs cid body q st
    (Hq : q <> "") (Hp : parseInt q = JNaN) :
  snd (Web3Controller_storePreviousEvents sha3 now cfgs cid body (Some q) st) =
  snd (Web3Controller_storePreviousEvents sha3 now cfgs cid None None st) /\
  fst (Web3Controller_storePreviousEvents sha3 now cfgs cid body (Some q) st) =
  match fst (Web3Controller_storePreviousEvents sha3 now cfgs cid None None st) with
  | Ok (StoreOk c _ cs) => Ok (StoreOk c (Some JNaN) cs)
  | r => r
  end.
Proof.
  apply String.eqb_neq in Hq.
  split.
  - unfold Web3Controller_storePreviousEvents, try_catch, bind, logger, emit, modify, throw, ret.
    cbv beta iota zeta; rewrite Hq, Hp; cbv beta iota.
    destruct cid as [c|]; [|reflexivity].
    destruct (c =? 0); [reflexivity|].
    destruct (find _ cfgs) as [cfg|]; [|reflexivity].
    destruct (String.eqb (trim (BlockchainConfig.wssUrl cfg)) ""); [reflexivity|].
    rewrite storePreviousEvents_nan; cbn [option_map].
    destruct (storePreviousEvents sha3 now [cfg] None _) as [[]]; reflexivity.
  - rewrite !controller_storePreviousEvents_result; unfold requested_fromBlock; rewrite Hq, Hp.
    destruct cid as [c|]; [|reflexivity].
    destruct (c =? 0); [reflexivity|].
    destruct (find _ cfgs) as [cfg|]; [|reflexivity].
    destruct (String.eqb (trim (BlockchainConfig.wssUrl cfg)) ""); reflexivity.
Qed.

Lemma nan_fromBlock_query_ignored_witness :
  snd (Web3Controller_storePreviousEvents ex_sha3 ex_now [ex_config] (Some 56) (Some 2000) (Some "abc") st0) =
  snd (Web3Controller_storePreviousEvents ex_sha3 ex_now [ex_config] (Some 56) None None st0) /\
  fst (Web3Controller_storePreviousEvents ex_sha3 ex_now [ex_config] (Some 56) (Some 2000) (Some "abc") st0) =
  match fst (Web3Controller_storePreviousEvents ex_sha3 ex_now [ex_config] (Some 56) None None st0) with
  | Ok (StoreOk c _ cs) => Ok (StoreOk c (Some JNaN) cs)
  | r => r
  end.
Proof. apply nan_fromBlock_query_ignored; [discriminate|vm_compute; reflexivity]. Defined.

Lemma teardown_calls_app l l' :
  teardown_calls (l ++ l')%list = (teardown_calls l ++ teardown_calls l')%list.
Proof. apply filter_app. Qed.

Lemma with_trace_self s : with_trace (trace s) s = s.
Proof. destruct s; reflexivity. Qed.

Lemma forM_trace {A} (f : A -> M unit) (g : A -> list Effect) xs :
  (forall x s, exists l, f x s = (Ok tt, with_trace (trace s ++ l)%list s) /\
                         teardown_calls l = g x) ->
  forall s, exists l, forM xs f s = (Ok tt, with_trace (trace s ++ l)%list s) /\
                      teardown_calls l = flat_map g xs.
Proof.
  intros Hf; induction xs as [|x r IH]; intro s.
  - exists []; rewrite app_nil_r, with_trace_self; split; reflexivity.
  - destruct (Hf x s) as [l1 [E1 T1]].
    destruct (IH (with_trace (trace s ++ l1)%list s)) as [l2 [E2 T2]].
    exists (l1 ++ l2)%list; cbn [forM flat_map].
    rewrite (bind_ok _ _ _ _ _ E1), E2, teardown_calls_app, T1, T2.
    cbn [trace with_trace]; rewrite app_assoc; split; reflexivity.
Qed.

Lemma unsubscribe_step (u : string -> bool) key s :
  exists l, try_catch (emit (EUnsubscribe key) ;;
                       if u key then ret tt else throw (Error "unsubscribe"))
                      (fun _ => logger LWarn "Error unsubscribing") s =
            (Ok tt, with_trace (trace s ++ l)%list s) /\ teardown_calls l = [EUnsubscribe key].
Proof.
  unfold_monad; destruct (u key).
  - exists [EUnsubscribe key]; split; reflexivity.
  - exists [EUnsubscribe key; ELog LWarn "Error unsubscribing"]; cbn [trace with_trace].
    rewrite <- app_assoc; split; reflexivity.
Qed.

Lemma disconnect_step (d : string -> bool) (c : string * Chain.t) s :
  exists l, try_catch (emit (EDisconnect (fst c)) ;;
                       if d (fst c) then logger LLog "Disconnected" else throw (Error "disconnect"))
                      (fun _ => logger LWarn "Error disconnecting") s =
            (Ok tt, with_trace (trace s ++ l)%list s) /\ teardown_calls l = [EDisconnect (fst c)].
Proof.
  unfold_monad; destruct (d (fst c)); cbn [trace with_trace].
  - exists [EDisconnect (fst c); ELog LLog "Disconnected"]; rewrite <- app_assoc; split; reflexivity.
  - exists [EDisconnect (fst c); ELog LWarn "Error disconnecting"]; rewrite <- app_assoc; split; reflexivity.
Qed.

Lemma flat_map_single {A B} (f : A -> B) l : flat_map (fun x => [f x]) l = map f l.
Proof. induction l as [|x r IH]; cbn; [|rewrite IH]; reflexivity. Qed.

Lemma disconnect_run u d st :
  fst (disconnect u d st) = Ok tt /\
  subscriptions (snd (disconnect u d st)) = [] /\
  web3Connections (snd (disconnect u d st)) = [] /\
  connected (snd (disconnect u d st)) = false /\
  stock_manager_events (snd (disconnect u d st)) = stock_manager_events st /\
  events (snd (disconnect u d st)) = events st /\
  backfillArmed (snd (disconnect u d st)) = backfillArmed st /\
  teardown_calls (trace (snd (disconnect u d st))) =
    (teardown_calls (trace st) ++ map EUnsubscribe (subscriptions st) ++
     map (fun c => EDisconnect (fst c)) (web3Connections st))%list.
Proof.
  set (s1 := with_trace (trace st ++ [ELog LLog "Disconnecting"])%list st).
  destruct (forM_trace _ (fun key => [EUnsubscribe key]) (subscriptions s1) (unsubscribe_step u) s1)
    as [l1 [E1 T1]].
  set (s2 := with_trace (trace s1 ++ l1)%list s1) in E1.
  destruct (forM_trace _ (fun c => [EDisconnect (fst c)]) (web3Connections s2) (disconnect_step d) s2)
    as [l2 [E2 T2]].
  assert (R : disconnect u d st =
    (Ok tt, set_connected false (set_web3Connections [] (set_subscriptions []
               (with_trace (trace s2 ++ l2)%list s2))))).
  { unfold disconnect.
    rewrite (bind_ok _ _ st tt s1) by reflexivity.
    rewrite (bind_ok _ _ s1 s1 s1) by reflexivity.
    rewrite (bind_ok _ _ _ _ _ E1).
    rewrite (bind_ok _ _ s2 s2 s2) by reflexivity.
    rewrite (bind_ok _ _ _ _ _ E2).
    reflexivity. }
  rewrite R; cbn [fst snd set_connected set_web3Connections set_subscriptions
                  subscriptions web3Connections connected stock_manager_events events
                  backfillArmed trace with_trace] in *.
  subst s2 s1; cbn [trace with_trace web3Connections subscriptions] in *.
  rewrite !teardown_calls_app, T1, T2, !flat_map_single.
  repeat split.
  cbn [teardown_calls filter is_teardown]; rewrite app_nil_r, <- !app_assoc; reflexivity.
Qed.

Lemma connect_then_armed endpoint configs st :
  exists s', connectToMultipleChains endpoint configs st = (Ok tt, s') /\
             connected s' = true /\ backfillArmed s' = true.
Proof.
  unfold connectToMultipleChains.
  rewrite (bind_ok _ _ st tt _) by reflexivity; cbv beta.
  rewrite (bind_ok _ _ _ tt _) by reflexivity; cbv beta.
  match goal with |- context [bind (forM ?xs ?f) _ ?s] =>
    assert (Hn : nothrow (forM xs f)) by (apply nothrow_forM; intro; nt_split);
    destruct (Hn s) as [[] Ha]; destruct (forM xs f s) as [r s'] eqn:E;
    cbn [fst] in Ha; subst r end.
  rewrite (bind_ok _ _ _ _ _ E).
  eexists; split; [reflexivity|split; reflexivity].
Qed.

Lemma es_connect_then_connected endpoint configs st :
  exists s', EventsSchema.connectToMultipleChains endpoint configs st = (Ok tt, s') /\
             connected s' = true.
Proof.
  unfold EventsSchema.connectToMultipleChains.
  rewrite (bind_ok _ _ st tt _) by reflexivity; cbv beta.
  match goal with |- context [bind (forM ?xs ?f) _ ?s] =>
    assert (Hn : nothrow (forM xs f)) by (apply nothrow_forM; intro; nt_split);
    destruct (Hn s) as [[] Ha]; destruct (forM xs f s) as [r s'] eqn:E;
    cbn [fst] in Ha; subst r end.
  rewrite (bind_ok _ _ _ _ _ E).
  eexists; split; reflexivity.
Qed.

Lemma stop_disarms st :
  exists s', stopHourlyBackfill st = (Ok tt, s') /\ backfillArmed s' = false /\
             web3Connections s' = web3Connections st /\ subscriptions s' = subscriptions st /\
             stock_manager_events s' = stock_manager_events st /\ events s' = events st.
Proof.
  unfold stopHourlyBackfill; unfold_monad; cbv beta iota.
  destruct (backfillArmed st) eqn:E; eexists; (split; [reflexivity|repeat split; try exact E]).
Qed.

(** X11: after [connectToMultipleChains] the service reports connected and
    the backfill running, even if every chain failed; after [onModuleDestroy]
    it reports not connected, backfill stopped, no chain status and no Web3
    instance. The events-schema service likewise. *)
Theorem service_lifecycle_status endpoint configs u d pc name st :
  fst (connectToMultipleChains endpoint configs st) = Ok tt /\
  fst (isConnected (snd (connectToMultipleChains endpoint configs st))) = Ok true /\
  fst (getBackfillStatus (snd (connectToMultipleChains endpoint configs st))) = Ok true /\
  fst (EventsSchema.connectToMultipleChains endpoint configs st) = Ok tt /\
  connected (snd (EventsSchema.connectToMultipleChains endpoint configs st)) = true /\
  fst (onModuleDestroy u d st) = Ok tt /\
  fst (isConnected (snd (onModuleDestroy u d st))) = Ok false /\
  fst (getBackfillStatus (snd (onModuleDestroy u d st))) = Ok false /\
  fst (getChainConnectionStatus pc (snd (onModuleDestroy u d st))) = Ok [] /\
  fst (getWeb3Instance name (snd (onModuleDestroy u d st))) = Ok None /\
  fst (EventsSchema.onModuleDestroy u d st) = Ok tt /\
  connected (snd (EventsSchema.onModuleDestroy u d st)) = false /\
  web3Connections (snd (EventsSchema.onModuleDestroy u d st)) = [] /\
  subscriptions (snd (EventsSchema.onModuleDestroy u d st)) = [].
Proof.
  destruct (connect_then_armed endpoint configs st) as [s1 [E1 [C1 B1]]].
  destruct (es_connect_then_connected endpoint configs st) as [s2 [E2 C2]].
  destruct (stop_disarms st) as [s3 [E3 [A3 _]]].
  assert (D : onModuleDestroy u d st = disconnect u d s3)
    by (unfold onModuleDestroy; exact (bind_ok _ (fun _ => disconnect u d) _ _ _ E3)).
  destruct (disconnect_run u d s3) as [F [Hs [Hw [Hc [_ [_ [Hb _]]]]]]].
  destruct (disconnect_run u d st) as [F' [Hs' [Hw' [Hc' _]]]].
  unfold isConnected, getBackfillStatus, getChainConnectionStatus, getWeb3Instance,
    EventsSchema.onModuleDestroy, bind, get, ret.
  rewrite E1, E2, D; cbv beta iota.
  destruct (disconnect u d s3) as [r s4]; cbn [fst snd] in *.
  rewrite C1, B1, C2, Hc, Hb, A3, Hw, F, F', Hc', Hw', Hs'.
  repeat split.
Qed.

(** X1: every entry point of the stock-manager service (the data listener,
    the connect listener, connecting, storing previous events, the hourly and
    manual backfills, both controller handlers, module destroy) only appends
    rows to the tables and keeps their transaction hashes distinct. *)
Theorem service_tables_append_only sha3 now endpoint configs cfgs cid body q bc n cn
    contracts log f u d :
  stable store_grows (onLogData sha3 now cn contracts log) /\
  stable store_grows (onProviderConnect cn) /\
  stable store_grows (connectToMultipleChains endpoint configs) /\
  stable store_grows (storePreviousEvents sha3 now configs f) /\
  stable store_grows (performHourlyBackfill sha3 now) /\
  stable store_grows (triggerManualBackfill sha3 now n) /\
  stable store_grows (triggerBackfill sha3 now bc) /\
  stable store_grows (Web3Controller_storePreviousEvents sha3 now cfgs cid body q) /\
  stable store_grows (onModuleDestroy u d).
Proof.
  repeat match goal with |- _ /\ _ => split end; auto using sg_onLogData, sg_onProviderConnect, sg_connectToMultipleChains,
    sg_storePreviousEvents, sg_performHourlyBackfill, sg_triggerManualBackfill,
    sg_triggerBackfill, sg_controller_storePreviousEvents, sg_onModuleDestroy.
Qed.

(** X2: the same for the entry points of the events-schema service. *)
Theorem events_schema_tables_append_only sha3 now endpoint configs f cn contracts log u d :
  stable store_grows (EventsSchema.processLog sha3 now cn contracts log) /\
  stable store_grows (EventsSchema.connectToMultipleChains endpoint configs) /\
  stable store_grows (EventsSchema.storePreviousEvents sha3 now configs f) /\
  stable store_grows (EventsSchema.onModuleDestroy u d).
Proof.
  repeat match goal with |- _ /\ _ => split end; auto using sg_es_processLog, sg_es_connectToMultipleChains,
    sg_es_storePreviousEvents, sg_es_onModuleDestroy.
Qed.

(** X3: log processing, the connect listener, connecting, storing previous
    events, backfills and module destroy of both services never reject:
    every error is caught and logged. *)
Theorem entry_points_never_throw sha3 now endpoint configs config f n cn contracts log u d :
  nothrow (processLog sha3 now cn contracts log) /\
  nothrow (onProviderConnect cn) /\
  nothrow (connectToMultipleChains endpoint configs) /\
  nothrow (storePreviousEvents sha3 now configs f) /\
  nothrow (backfillLastBlocks sha3 now config n) /\
  nothrow (performHourlyBackfill sha3 now) /\
  nothrow (triggerManualBackfill sha3 now n) /\
  nothrow (onModuleDestroy u d) /\
  nothrow (EventsSchema.processLog sha3 now cn contracts log) /\
  nothrow (EventsSchema.connectToMultipleChains endpoint configs) /\
  nothrow (EventsSchema.storePreviousEvents sha3 now configs f) /\
  nothrow (EventsSchema.onModuleDestroy u d).
Proof.
  repeat match goal with |- _ /\ _ => split end; auto using nt_processLog, nt_onProviderConnect, nt_connectToMultipleChains,
    nt_storePreviousEvents, nt_backfillLastBlocks, nt_performHourlyBackfill,
    nt_triggerManualBackfill, nt_onModuleDestroy, nt_es_processLog,
    nt_es_connectToMultipleChains, nt_es_storePreviousEvents, nt_es_onModuleDestroy.
Qed.

(** X4: the [catch] of the subscription's [data] listener never runs: the
    listener behaves exactly as [processLog]. *)
Theorem data_listener_catch_unreachable sha3 now cn contracts log st :
  onLogData sha3 now cn contracts log st = processLog sha3 now cn contracts log st.
Proof. apply onLogData_processLog. Qed.

(** X5: [triggerBackfill] rejects with BadRequest exactly when the requested
    block count is [<= 0] or [> 50000]; otherwise it returns success with that
    count, never the failure response. *)
Theorem triggerBackfill_outcome sha3 now bc st :
  fst (triggerBackfill sha3 now bc st) =
  let n := requested_blockCount bc in
  if js_le n (JNum 0) || js_gt n (JNum 50000)
  then Throw (BadRequestException "Block count must be between 1 and 50000")
  else Ok (BackfillOk n).
Proof. apply triggerBackfill_result. Qed.

(** X7: the controller's [storePreviousEvents] rejects with BadRequest when the
    chain id is missing or 0, has no configuration, or has a blank WebSocket
    URL, and otherwise succeeds (never the failure response); when it rejects
    it has only logged. *)
Theorem controller_storePreviousEvents_outcome sha3 now cfgs cid body q st :
  fst (Web3Controller_storePreviousEvents sha3 now cfgs cid body q st) =
  match cid with
  | None => Throw (BadRequestException "Chain ID is required")
  | Some c =>
      if c =? 0 then Throw (BadRequestException "Chain ID is required")
      else
        match find (fun config => BlockchainConfig.chainId config =? c) cfgs with
        | None => Throw (BadRequestException "Blockchain configuration not found")
        | Some cfg =>
            if String.eqb (trim (BlockchainConfig.wssUrl cfg)) ""
            then Throw (BadRequestException "WebSocket URL is not configured")
            else Ok (StoreOk c (requested_fromBlock q body) (BlockchainConfig.contracts cfg))
        end
  end /\
  (forall e, fst (Web3Controller_storePreviousEvents sha3 now cfgs cid body q st) = Throw e ->
   only_logs st (snd (Web3Controller_storePreviousEvents sha3 now cfgs cid body q st))).
Proof.
  split; [apply controller_storePreviousEvents_result|].
  intro e; apply controller_storePreviousEvents_rejects.
Qed.

(** X10: [disconnect] never rejects; it tries to unsubscribe every
    subscription and disconnect every provider in order, even when some fail,
    then clears subscriptions and connections and sets [connected] to false,
    leaving the tables and the backfill timer as they were. *)
Theorem disconnect_tears_down u d st :
  fst (disconnect u d st) = Ok tt /\
  subscriptions (snd (disconnect u d st)) = [] /\
  web3Connections (snd (disconnect u d st)) = [] /\
  connected (snd (disconnect u d st)) = false /\
  stock_manager_events (snd (disconnect u d st)) = stock_manager_events st /\
  events (snd (disconnect u d st)) = events st /\
  backfillArmed (snd (disconnect u d st)) = backfillArmed st /\
  teardown_calls (trace (snd (disconnect u d st))) =
    (teardown_calls (trace st) ++ map EUnsubscribe (subscriptions st) ++
     map (fun c => EDisconnect (fst c)) (web3Connections st))%list.
Proof. apply disconnect_run. Qed.
